(** * bitrise-step-artefact-download: a shallow embedding of [main.go]

    The program reads its configuration from the environment, lists the
    artifacts of a build through the Bitrise API, resolves a display name to
    an artifact slug, downloads the artifact and writes it to disk.

    Go strings are byte sequences: they are [string] here (a list of 8-bit
    characters), response bodies and file contents are [list Byte.byte].
    Go's [map[string]string] is a [gmap string string].  Everything outside
    the repository (the operating system, the network, [encoding/json],
    [path/filepath]) is kept abstract in two records, [Lib] and [World], and
    every effect of the program is recorded in an event trace.  Where a
    property depends on what a library function does, the function is
    modelled from its documentation: [filepath.Join] for Unix paths and the
    way [net/url] writes a URL out. *)

From Stdlib Require Import ZArith String List.
From stdpp Require Import base option list gmap strings pretty sorting.

Local Open Scope Z_scope.

(** ** Constants *)

Definition domain : string := "https://api.bitrise.io".
Definition apiVersion : string := "v0.1".

(** [time.Duration] counts nanoseconds. *)
Definition Nanosecond : Z := 1.
Definition Second : Z := 1000000000 * Nanosecond.

(** ** Errors

    A Go [error] is an interface value; the program only ever creates errors
    with [fmt.Errorf] and otherwise passes on what a library call returned.
    The constructor records where the error was made. *)

Inductive error : Type :=
| Errorf (msg : string)          (* fmt.Errorf *)
| RequestError (msg : string)    (* http.NewRequest *)
| NetError (msg : string)        (* http.Client.Do *)
| DecodeError (msg : string)     (* json.Decoder.Decode *)
| MarshalError (msg : string)    (* json.MarshalIndent *)
| FsError (msg : string)         (* os.MkdirAll, os.Create, File.Write *)
| ReadError (msg : string)       (* Body.Read *)
| CloseError (msg : string).     (* Body.Close *)

(** [err.Error()] *)
Definition Error (e : error) : string :=
  match e with
  | Errorf m | RequestError m | NetError m | DecodeError m
  | MarshalError m | FsError m | ReadError m | CloseError m => m
  end.

Definition is_decode_error (e : error) : bool :=
  match e with DecodeError _ => true | _ => false end.

(** ** Data model *)

(** [http.Client]: only the [Timeout] field is ever set. *)
Record http_Client : Type := { Timeout : Z }.

(** [http.DefaultClient], used by [http.Get]: the zero value, no timeout. *)
Definition http_DefaultClient : http_Client := {| Timeout := 0 |}.

Record Client : Type := {
  authToken : string;
  httpClient : http_Client
}.

(** One element of [Artifacts.Data]. *)
Record ArtifactSummary : Type := {
  ArtifactType : string;
  IsPublicPageEnabled : bool;
  Slug : string;
  Title : string
}.

(** The anonymous struct of [Artifacts.Paging]. *)
Record PagingInfo : Type := {
  PageItemLimit : Z;
  TotalItemCount : Z
}.

Record Artifacts : Type := {
  Data : list ArtifactSummary;
  Paging : PagingInfo
}.

(** [Artifact.Data] *)
Record ArtifactData : Type := {
  dArtifactType : string;
  ExpiringDownloadURL : string;
  dIsPublicPageEnabled : bool;
  PublicInstallPageURL : string;
  dSlug : string;
  dTitle : string
}.

Record Artifact : Type := { aData : ArtifactData }.

(** [http.Header] is a [map[string][]string]; [Header.Add] appends to the
    values of the key.  (It first brings the key into canonical form, which
    [Authorization], the only key the program adds, already has.) *)
Definition Header_Add (k v : string) (h : gmap string (list string))
  : gmap string (list string) :=
  <[k := default [] (h !! k) ++ [v]]> h.

(** A request as the program makes it: [URL] is the URL string the request
    is made from, the argument of [http.NewRequest].  [http.NewRequest]
    parses this string, and what the request then carries and sends is the
    parsed URL written out again, [carriedURL] below, which re-encodes the
    characters that need it. *)
Record Request : Type := {
  Method : string;
  URL : string;
  Header : gmap string (list string)
}.

(** What the network hands back for a request: a status code and a body
    stream.  The stream delivers [content] and then ends, with end-of-file
    or with [readErr]; closing it may fail with [closeErr]. *)
Record Stream : Type := {
  content : list Byte.byte;
  readErr : option error;
  closeErr : option error
}.

Record RawResponse : Type := {
  rawStatus : Z;
  rawBody : Stream
}.

(** A response body the program holds: the stream and the identity it got
    when the response was obtained. *)
Record Body : Type := {
  bodyId : nat;
  stream : Stream
}.

Record Response : Type := {
  StatusCode : Z;
  body : Body
}.

(** ** The title-to-slug map of [mainE]

    [artifactSlugMap := map[string]string{}] followed by the [range] loop
    over [artifacts.Data] that assigns [artifactSlugMap[Title] = Slug]. *)
Definition buildSlugMap (data : list ArtifactSummary) : gmap string string :=
  foldl (λ m artifact, <[Title artifact := Slug artifact]> m) ∅ data.

(** The entries with a given title, in listing order. *)
Definition withTitle (t : string) (data : list ArtifactSummary)
  : list ArtifactSummary :=
  filter (λ a, Title a = t) data.

(** ** Library functions the program calls

    These come from Go's standard library, not from the repository, and
    some depend on the platform ([filepath.Join]) or on the release of the
    library ([encoding/json]'s string escaping).  They are pure and are
    kept abstract; the theorems below hold for every choice of them. *)
Record Lib : Type := {
  (** [http.NewRequest] parses the URL; [Some err] when it rejects it. *)
  http_NewRequest_err : string → string → option error;
  (** How [encoding/json] writes a Go string: quoted and escaped. *)
  json_encodeString : string → string;
  (** [json.NewDecoder(body).Decode(&art)] for the two target types. *)
  json_DecodeArtifacts : Stream → error + Artifacts;
  json_DecodeArtifact : Stream → error + Artifact;
  (** [filepath.Join(dir, name)] *)
  filepath_Join : string → string → string
}.

(** ** The world the program runs in

    The environment, the file system's and the network's answers.  The
    answer to a request is a function of the client and the request: the
    program sends at most three requests in a run, and they differ from each
    other in the URL or in the header. *)
Record World : Type := {
  (** [os.Getenv]: the empty string for an unset variable. *)
  Getenv : string → string;
  (** [os.MkdirAll(path, perm)] *)
  MkdirAll : string → Z → option error;
  (** [client.Do(req)]: an error, or a status code and a body stream. *)
  Do : http_Client → Request → error + RawResponse;
  (** [os.Create(path)]: [Some err] when the file cannot be created. *)
  Create : string → option error;
  (** [Some (k, err)]: writing to the file fails with [err] once [k] bytes
      have been written. *)
  WriteFault : string → option (nat * error)
}.

(** ** Events and program state *)

Inductive Event : Type :=
| EvMkdirAll (path : string) (perm : Z)
  (** a request handed to [Do]; [got] is the body obtained, if any *)
| EvDo (c : http_Client) (req : Request) (got : option nat)
| EvDecode (b : nat)                  (* the JSON decoder reads body [b] *)
| EvClose (b : nat)                   (* [Body.Close()] on body [b] *)
| EvLog (msg : string)                (* [log.Printf] *)
| EvCreate (path : string)            (* [os.Create] succeeded *)
| EvCopy (b : nat) (path : string) (n : Z) (* [io.Copy] from [b] into the file *)
| EvStdout (msg : string).            (* [fmt.Printf] *)

(** [fs] maps the path of each regular file to its content; directories
    are not in it. *)
Record State : Type := {
  events : list Event;
  fs : gmap string (list Byte.byte);
  nextBody : nat
}.

Definition initial : State :=
  {| events := []; fs := ∅; nextBody := 0 |}.

(** A state monad over [State]. *)
Definition M (A : Type) : Type := State → A * State.

Definition ret {A : Type} (a : A) : M A := λ st, (a, st).

Definition bind {A B : Type} (m : M A) (k : A → M B) : M B :=
  λ st, let '(a, st') := m st in k a st'.

Notation "'let*' x ':=' m 'in' k" := (bind m (λ x, k))
  (at level 10, x name, m at level 100, k at level 200, only parsing).
Notation "m ';;;' k" := (bind m (λ _, k))
  (at level 100, k at level 200, right associativity, only parsing).

Definition emit (e : Event) : M unit :=
  λ st, (tt, {| events := events st ++ [e]; fs := fs st; nextBody := nextBody st |}).

(** The requests of a trace, in order, and the bodies obtained and closed. *)
Definition requests (tr : list Event) : list Request :=
  omap (λ e, match e with EvDo _ req _ => Some req | _ => None end) tr.

Definition obtained (tr : list Event) : list nat :=
  omap (λ e, match e with EvDo _ _ got => got | _ => None end) tr.

Definition closed (tr : list Event) : list nat :=
  omap (λ e, match e with EvClose b => Some b | _ => None end) tr.

Definition decoded (tr : list Event) : list nat :=
  omap (λ e, match e with EvDecode b => Some b | _ => None end) tr.

Definition printed (tr : list Event) : list string :=
  omap (λ e, match e with EvStdout s => Some s | _ => None end) tr.

(** File-system effects of a trace: directories made and files created. *)
Definition is_fs_event (e : Event) : bool :=
  match e with
  | EvMkdirAll _ _ | EvCreate _ | EvCopy _ _ _ => true
  | _ => false
  end.

(** ** Formatting *)

Definition LF : string := String (Ascii.ascii_of_nat 10) EmptyString.

(** [%d] *)
Definition fmt_d (n : Z) : string := pretty n.

(** [sub] occurs in [s]. *)
Definition Contains (sub s : string) : Prop :=
  ∃ pre post, s = pre +:+ sub +:+ post.

(** [os.ModePerm] *)
Definition os_ModePerm : Z := 511.

(** ** The program *)

(** [New] *)
Definition New (authToken : string) : Client :=
  {| authToken := authToken;
     httpClient := {| Timeout := 20 * Second |} |}.

(** [errNoEnv] *)
Definition errNoEnv (env : string) : error :=
  Errorf ("environment variable (" +:+ env +:+ ") is not set").

Section Embedding.
Context (L : Lib) (W : World).

(** [http.NewRequest(method, url, nil)]: a request with an empty header,
    made from the URL string [url] (see [Request] for what it carries). *)
Definition http_NewRequest (method url : string) : error + Request :=
  match http_NewRequest_err L method url with
  | Some err => inl err
  | None => inr {| Method := method; URL := url; Header := ∅ |}
  end.

(** [client.Do(req)]: asks the world, and gives the body obtained, if any,
    a fresh identity. *)
Definition http_Client_Do (c : http_Client) (req : Request)
  : M (error + Response) :=
  λ st,
    match Do W c req with
    | inl err =>
        (inl err,
         {| events := events st ++ [EvDo c req None];
            fs := fs st; nextBody := nextBody st |})
    | inr raw =>
        (inr {| StatusCode := rawStatus raw;
                body := {| bodyId := nextBody st; stream := rawBody raw |} |},
         {| events := events st ++ [EvDo c req (Some (nextBody st))];
            fs := fs st; nextBody := S (nextBody st) |})
    end.

(** [http.Get(url)]: the default client, nothing added to the header. *)
Definition http_Get (url : string) : M (error + Response) :=
  match http_NewRequest "GET" url with
  | inl err => ret (inl err)
  | inr req => http_Client_Do http_DefaultClient req
  end.

(** [Client.get]; on a [NewRequest] error the source returns an empty
    response next to the error, which no caller looks at. *)
Definition get (c : Client) (endpoint : string) : M (error + Response) :=
  let url := domain +:+ "/" +:+ apiVersion +:+ "/" +:+ endpoint in
  match http_NewRequest "GET" url with
  | inl err => ret (inl err)
  | inr req =>
      let req :=
        {| Method := Method req; URL := URL req;
           Header := Header_Add "Authorization"
                       ("token " +:+ authToken c) (Header req) |} in
      http_Client_Do (httpClient c) req
  end.

(** [responseBodyCloser]; the logger's own prefix is left out of [EvLog]. *)
Definition responseBodyCloser (resp : Response) : M unit :=
  emit (EvClose (bodyId (body resp)));;;
  match closeErr (stream (body resp)) with
  | Some err =>
      emit (EvLog (" [!] Failed to close response body: " +:+ Error err))
  | None => ret tt
  end.

(** [json.NewDecoder(resp.Body).Decode(&art)] *)
Definition DecodeArtifacts (b : Body) : M (error + Artifacts) :=
  emit (EvDecode (bodyId b));;;
  ret (json_DecodeArtifacts L (stream b)).

Definition DecodeArtifact (b : Body) : M (error + Artifact) :=
  emit (EvDecode (bodyId b));;;
  ret (json_DecodeArtifact L (stream b)).

(** [Client.GetArtifactsForBuild]; the deferred [responseBodyCloser] runs
    when the function returns, after the result has been computed. *)
Definition GetArtifactsForBuild (c : Client) (appSlug buildSlug : string)
  : M (error + Artifacts) :=
  let requestPath :=
    "apps/" +:+ appSlug +:+ "/builds/" +:+ buildSlug +:+ "/artifacts" in
  let* r := get c requestPath in
  match r with
  | inl err => ret (inl err)
  | inr resp =>
      let* res :=
        (if (StatusCode resp >=? 300) || (StatusCode resp <? 200)
         then ret (inl (Errorf
                ("failed to get artifacts with status code ("
                 +:+ fmt_d (StatusCode resp)
                 +:+ ") for [build_slug: " +:+ appSlug
                 +:+ ", app_slug: " +:+ buildSlug +:+ "]")))
         else DecodeArtifacts (body resp)) in
      responseBodyCloser resp;;;
      ret res
  end.

(** [Client.GetArtifactDetails] *)
Definition GetArtifactDetails (c : Client)
  (appSlug buildSlug artifactSlug : string) : M (error + Artifact) :=
  let requestPath :=
    "apps/" +:+ appSlug +:+ "/builds/" +:+ buildSlug
    +:+ "/artifacts/" +:+ artifactSlug in
  let* r := get c requestPath in
  match r with
  | inl err => ret (inl err)
  | inr resp =>
      let* res :=
        (if (StatusCode resp >=? 300) || (StatusCode resp <? 200)
         then ret (inl (Errorf
                ("failed to get artifact details with status code ("
                 +:+ fmt_d (StatusCode resp)
                 +:+ ") for [build_slug: " +:+ appSlug
                 +:+ ", app_slug: " +:+ buildSlug +:+ "]")))
         else DecodeArtifact (body resp)) in
      responseBodyCloser resp;;;
      ret res
  end.

(** [Client.DownloadArtifact]: the body of the second response is handed
    to the caller as it is. *)
Definition DownloadArtifact (c : Client)
  (appSlug buildSlug artifactSlug : string) : M (error + Body) :=
  let* r := GetArtifactDetails c appSlug buildSlug artifactSlug in
  match r with
  | inl err => ret (inl err)
  | inr artifact =>
      let* r2 := http_Get (ExpiringDownloadURL (aData artifact)) in
      match r2 with
      | inl err => ret (inl err)
      | inr resp => ret (inr (body resp))
      end
  end.


(** [json.MarshalIndent(m, "", "  ")] on a [map[string]string]: the keys
    in sorted order, one member per line, two spaces of indentation and a
    space after the colon; an empty map is written without line breaks.
    It has no failing case for this type. *)
Definition json_member (kv : string * string) : string :=
  "  " +:+ json_encodeString L kv.1 +:+ ": " +:+ json_encodeString L kv.2.

Definition sortedEntries (m : gmap string string) : list (string * string) :=
  merge_sort (λ p q, String.le p.1 q.1) (map_to_list m).

Definition json_MarshalIndent (m : gmap string string) : error + string :=
  inr (match sortedEntries m with
       | [] => "{}"
       | es => "{" +:+ LF
               +:+ String.concat ("," +:+ LF) (json_member <$> es)
               +:+ LF +:+ "}"
       end).

(** [os.MkdirAll]: the directories it makes are not part of [fs], which
    holds regular files only; the call is on record as [EvMkdirAll]. *)
Definition os_MkdirAll (path : string) (perm : Z) : M (option error) :=
  emit (EvMkdirAll path perm);;;
  ret (MkdirAll W path perm).

(** [os.Create]: the file exists and is empty afterwards. *)
Definition os_Create (path : string) : M (option error) :=
  match Create W path with
  | Some err => ret (Some err)
  | None =>
      λ st, (None,
             {| events := events st ++ [EvCreate path];
                fs := <[path := []]> (fs st);
                nextBody := nextBody st |})
  end.

(** [io.Copy(file, reader)]: everything the stream delivers goes to the
    file, unless writing fails first; the result is the number of bytes
    written and the first error met, the end of the stream not being
    one. *)
Definition io_Copy (path : string) (reader : Body) : M (Z * option error) :=
  λ st,
    let data := content (stream reader) in
    let '(written, err) :=
      match WriteFault W path with
      | Some (k, werr) =>
          if (k <? length data)%nat then (take k data, Some werr)
          else (data, readErr (stream reader))
      | None => (data, readErr (stream reader))
      end in
    let n := Z.of_nat (length written) in
    ((n, err),
     {| events := events st ++ [EvCopy (bodyId reader) path n];
        fs := <[path := default [] (fs st !! path) ++ written]> (fs st);
        nextBody := nextBody st |}).

(** [mainE] *)
Definition mainE : M (option error) :=
  let accessTokenKey := "API_AUTH_TOKEN" in
  let accessToken := Getenv W accessTokenKey in
  if decide (accessToken = "") then ret (Some (errNoEnv accessTokenKey)) else
  let appSlugKey := "APP_SLUG" in
  let appSlug := Getenv W appSlugKey in
  if decide (appSlug = "") then ret (Some (errNoEnv appSlugKey)) else
  let buildSlugKey := "WORKFLOW_SLUG_ID" in
  let buildSlug := Getenv W buildSlugKey in
  if decide (buildSlug = "") then ret (Some (errNoEnv buildSlugKey)) else
  let artifactNameKey := "ARTIFACT_NAME" in
  let artifactName := Getenv W artifactNameKey in
  if decide (artifactName = "") then ret (Some (errNoEnv artifactNameKey)) else
  let downloadDirKey := "DOWNLOAD_DIR" in
  let downloadDir := Getenv W downloadDirKey in
  let downloadDir := if decide (downloadDir = "") then "." else downloadDir in
  let* mk := os_MkdirAll downloadDir os_ModePerm in
  match mk with
  | Some err => ret (Some err)
  | None =>
  let c := New accessToken in
  let* la := GetArtifactsForBuild c appSlug buildSlug in
  match la with
  | inl err => ret (Some err)
  | inr artifacts =>
  let artifactSlugMap := buildSlugMap (Data artifacts) in
  match artifactSlugMap !! artifactName with
  | None =>
      match json_MarshalIndent artifactSlugMap with
      | inl err => ret (Some err)
      | inr keys =>
          ret (Some (Errorf
            ("unable to find artifact with name (" +:+ artifactName
             +:+ "), available artifacts:" +:+ LF +:+ keys)))
      end
  | Some artifactSlug =>
  let* dl := DownloadArtifact c appSlug buildSlug artifactSlug in
  match dl with
  | inl err => ret (Some err)
  | inr reader =>
  let file := filepath_Join L downloadDir artifactName in
  let* cr := os_Create file in
  match cr with
  | Some err => ret (Some err)
  | None =>
  let* cp := io_Copy file reader in
  match cp.2 with
  | Some err => ret (Some err)
  | None =>
  emit (EvStdout ("done, [" +:+ fmt_d cp.1 +:+ " byte] downloaded" +:+ LF));;;
  ret None
  end end end end end end.

(** [main]: the result is the status handed to [os.Exit]. *)
Definition main : M Z :=
  let* r := mainE in
  match r with
  | Some err =>
      emit (EvStdout ("Error: " +:+ Error err +:+ LF));;;
      ret 1
  | None => ret 0
  end.
End Embedding.

(** ** Describing runs *)

(** The state after the events [tr] have happened in [st]. *)
Definition after (st : State) (tr : list Event) : State :=
  {| events := events st ++ tr; fs := fs st; nextBody := nextBody st |}.

(** What [responseBodyCloser] leaves in the trace for body [b]. *)
Definition closing (b : nat) (s : Stream) : list Event :=
  EvClose b ::
  match closeErr s with
  | Some err => [EvLog (" [!] Failed to close response body: " +:+ Error err)]
  | None => []
  end.

(** The request [Client.get] builds for an endpoint. *)
Definition apiRequest (c : Client) (endpoint : string) : Request :=
  {| Method := "GET";
     URL := domain +:+ "/" +:+ apiVersion +:+ "/" +:+ endpoint;
     Header := {[ "Authorization" := ["token " +:+ authToken c] ]} |}.

(** The request [http.Get] builds for a URL. *)
Definition plainRequest (url : string) : Request :=
  {| Method := "GET"; URL := url; Header := ∅ |}.

(** The state after [client.Do(req)] has handed out a body in [st]. *)
Definition afterDo (st : State) (c : http_Client) (req : Request) : State :=
  {| events := events st ++ [EvDo c req (Some (nextBody st))];
     fs := fs st; nextBody := S (nextBody st) |}.

(** The endpoints of the two API calls. *)
Definition listPath (appSlug buildSlug : string) : string :=
  "apps/" +:+ appSlug +:+ "/builds/" +:+ buildSlug +:+ "/artifacts".

Definition detailPath (appSlug buildSlug artifactSlug : string) : string :=
  "apps/" +:+ appSlug +:+ "/builds/" +:+ buildSlug
  +:+ "/artifacts/" +:+ artifactSlug.

(** The events that happened between [st] and a later state [st1]. *)
Definition issued (st st1 : State) : list Event :=
  drop (length (events st)) (events st1).

(** Body identities are handed out in increasing order: a state is
    well-formed when every body its trace mentions is older than the next
    one to be handed out. *)
Definition wf (st : State) : Prop :=
  ∀ b, b ∈ obtained (events st) ∨ b ∈ closed (events st) → (b < nextBody st)%nat.

(** The variables [mainE] requires, in the order it reads them. *)
Definition requiredEnv : list string :=
  ["API_AUTH_TOKEN"; "APP_SLUG"; "WORKFLOW_SLUG_ID"; "ARTIFACT_NAME"].

Definition firstMissing (W : World) : option string :=
  List.find (λ k, bool_decide (Getenv W k = "")) requiredEnv.

(** The directory [mainE] downloads into. *)
Definition downloadDirOf (W : World) : string :=
  if decide (Getenv W "DOWNLOAD_DIR" = "") then "." else Getenv W "DOWNLOAD_DIR".

(** The state after [os.Create(path)] succeeded in [st]. *)
Definition afterCreate (st : State) (path : string) : State :=
  {| events := events st ++ [EvCreate path];
     fs := <[path := []]> (fs st);
     nextBody := nextBody st |}.

(** ** A concrete library and world

    A run of the program against a server with one build: the listing has
    one artifact, [app.apk] with slug [abc123], whose signed URL serves
    1024 bytes.  The decoder understands exactly the two documents this
    server sends. *)

Definition DQ : string := String (Ascii.ascii_of_nat 34) EmptyString.

Definition quoted (s : string) : string := DQ +:+ s +:+ DQ.

Definition demoListingJSON : string :=
  "{" +:+ quoted "data" +:+ ":[{" +:+ quoted "title" +:+ ":" +:+ quoted "app.apk"
  +:+ "," +:+ quoted "slug" +:+ ":" +:+ quoted "abc123" +:+ "}]}".

Definition demoSignedURL : string := "https://storage.example/abc123?sig=1".

Definition demoDetailJSON : string :=
  "{" +:+ quoted "data" +:+ ":{" +:+ quoted "expiring_download_url" +:+ ":"
  +:+ quoted demoSignedURL +:+ "}}".

Definition demoListing : Artifacts :=
  {| Data := [ {| ArtifactType := ""; IsPublicPageEnabled := false;
                  Slug := "abc123"; Title := "app.apk" |} ];
     Paging := {| PageItemLimit := 0; TotalItemCount := 0 |} |}.

Definition demoDetail : Artifact :=
  {| aData := {| dArtifactType := ""; ExpiringDownloadURL := demoSignedURL;
                 dIsPublicPageEnabled := false; PublicInstallPageURL := "";
                 dSlug := ""; dTitle := "" |} |}.

Definition demoLib : Lib :=
  {| http_NewRequest_err := λ _ _, None;
     json_encodeString := quoted;
     json_DecodeArtifacts := λ s,
       if decide (string_of_list_byte (content s) = demoListingJSON)
       then inr demoListing else inl (DecodeError "unexpected document");
     json_DecodeArtifact := λ s,
       if decide (string_of_list_byte (content s) = demoDetailJSON)
       then inr demoDetail else inl (DecodeError "unexpected document");
     filepath_Join := λ dir name,
       if decide (dir = ".") then name else dir +:+ "/" +:+ name |}.

Definition textStream (s : string) : Stream :=
  {| content := list_byte_of_string s; readErr := None; closeErr := None |}.

Definition demoPayload : list Byte.byte := replicate 1024 Byte.x2a.

(** The environment names the artifact [name]; the listing and the detail
    endpoint answer with the given status codes. *)
Definition demoWorld (name : string) (listingStatus detailStatus : Z) : World :=
  {| Getenv := λ k,
       if decide (k = "API_AUTH_TOKEN") then "s3cr3t"
       else if decide (k = "APP_SLUG") then "app1"
       else if decide (k = "WORKFLOW_SLUG_ID") then "build7"
       else if decide (k = "ARTIFACT_NAME") then name
       else "";
     MkdirAll := λ _ _, None;
     Do := λ _ req,
       if decide (URL req
                  = "https://api.bitrise.io/v0.1/apps/app1/builds/build7/artifacts")
       then inr {| rawStatus := listingStatus;
                   rawBody := textStream demoListingJSON |}
       else if decide (URL req
                  = "https://api.bitrise.io/v0.1/apps/app1/builds/build7/artifacts/abc123")
       then inr {| rawStatus := detailStatus;
                   rawBody := textStream demoDetailJSON |}
       else if decide (URL req = demoSignedURL)
       then inr {| rawStatus := 200;
                   rawBody := {| content := demoPayload; readErr := None;
                                 closeErr := None |} |}
       else inl (NetError "no such host");
     Create := λ _, None;
     WriteFault := λ _, None |}.

(** A world in which no variable is set. *)
Definition emptyWorld : World :=
  {| Getenv := λ _, "";
     MkdirAll := λ _ _, None;
     Do := λ _ _, inl (NetError "no such host");
     Create := λ _, None;
     WriteFault := λ _, None |}.

(** ** Describing what [io.Copy] did *)

(** What [io.Copy] gets into the file and the error it ends with. *)
Definition copied (W : World) (file : string) (reader : Body)
  : list Byte.byte * option error :=
  let data := content (stream reader) in
  match WriteFault W file with
  | Some (k, werr) =>
      if (k <? length data)%nat then (take k data, Some werr)
      else (data, readErr (stream reader))
  | None => (data, readErr (stream reader))
  end.

(** The state after [io.Copy] has put [written] into the file. *)
Definition afterCopy (st : State) (file : string) (reader : Body)
    (written : list Byte.byte) : State :=
  {| events := events st
               ++ [EvCopy (bodyId reader) file (Z.of_nat (length written))];
     fs := <[file := default [] (fs st !! file) ++ written]> (fs st);
     nextBody := nextBody st |}.

(** The URL of an API endpoint. *)
Definition apiURL (endpoint : string) : string :=
  domain +:+ "/" +:+ apiVersion +:+ "/" +:+ endpoint.

(** ** More libraries and worlds *)

(** A library whose [http.NewRequest] rejects every URL. *)
Definition rejectingLib : Lib :=
  {| http_NewRequest_err := λ _ _, Some (RequestError "invalid URL");
     json_encodeString := json_encodeString demoLib;
     json_DecodeArtifacts := json_DecodeArtifacts demoLib;
     json_DecodeArtifact := json_DecodeArtifact demoLib;
     filepath_Join := filepath_Join demoLib |}.

(** [W] with a file system that fails as told. *)
Definition withFaults (W : World) (mk cr : option error)
    (wfault : option (nat * error)) : World :=
  {| Getenv := Getenv W;
     MkdirAll := λ _ _, mk;
     Do := Do W;
     Create := λ _, cr;
     WriteFault := λ _, wfault |}.

(** [W] with the request for [url] answered by [raw]. *)
Definition answering (W : World) (url : string) (raw : RawResponse) : World :=
  {| Getenv := Getenv W;
     MkdirAll := MkdirAll W;
     Do := λ c req, if decide (URL req = url) then inr raw else Do W c req;
     Create := Create W;
     WriteFault := WriteFault W |}.

(** [W] without network. *)
Definition offline (W : World) : World :=
  {| Getenv := Getenv W;
     MkdirAll := MkdirAll W;
     Do := λ _ _, inl (NetError "dial tcp: no route to host");
     Create := Create W;
     WriteFault := WriteFault W |}.

(** A listing in which the title [app.apk] occurs twice. *)
Definition artifactEntry (title slug : string) : ArtifactSummary :=
  {| ArtifactType := "file"; IsPublicPageEnabled := false;
     Slug := slug; Title := title |}.

(** A library whose decoder reads every body as an empty listing. *)
Definition emptyListingLib : Lib :=
  {| http_NewRequest_err := http_NewRequest_err demoLib;
     json_encodeString := json_encodeString demoLib;
     json_DecodeArtifacts := λ _,
       inr {| Data := [];
              Paging := {| PageItemLimit := 50; TotalItemCount := 0 |} |};
     json_DecodeArtifact := json_DecodeArtifact demoLib;
     filepath_Join := filepath_Join demoLib |}.

(** The concrete world with the signed URL answering 403. *)
Definition deniedWorld : World :=
  answering (demoWorld "app.apk" 200 200) demoSignedURL
    {| rawStatus := 403; rawBody := textStream "AccessDenied" |}.

(** The concrete world with a disk that is full after 100 bytes. *)
Definition fullDiskWorld : World :=
  withFaults (demoWorld "app.apk" 200 200) None None
    (Some (100%nat, FsError "no space left on device")).

(** The concrete world with a download directory that cannot be made. *)
Definition readOnlyWorld : World :=
  withFaults (demoWorld "app.apk" 200 200)
    (Some (FsError "mkdir .: permission denied")) None None.

(** The concrete world with a listing endpoint that answers with a page of
    HTML. *)
Definition htmlWorld : World :=
  answering (demoWorld "app.apk" 200 200)
    "https://api.bitrise.io/v0.1/apps/app1/builds/build7/artifacts"
    {| rawStatus := 200; rawBody := textStream "<html>maintenance</html>" |}.

(** The concrete world with a listing response whose body cannot be closed
    properly. *)
Definition resetWorld : World :=
  answering (demoWorld "app.apk" 200 200)
    "https://api.bitrise.io/v0.1/apps/app1/builds/build7/artifacts"
    {| rawStatus := 200;
       rawBody := {| content := list_byte_of_string demoListingJSON;
                     readErr := None;
                     closeErr := Some (CloseError "connection reset by peer") |} |}.

(** ** Paths on Unix

    Modelled from the documentation of Go's [path/filepath] for Unix, where
    the separator is the slash and there are no volume names.  [Clean]
    replaces runs of separators by one, drops each [.] element, drops each
    inner [..] element together with the element before it, drops [..]
    elements that begin a rooted path, and returns [.] for an empty
    result.  [Join] joins its non-empty arguments with a separator and
    cleans the result. *)











(** The files created in a trace. *)
Definition created (tr : list Event) : list string :=
  omap (λ e, match e with EvCreate path => Some path | _ => None end) tr.

(** ** What a request carries for its URL

    Modelled from the documentation and behaviour of Go's [net/url], for a
    URL string of the form [scheme://host/path] without percent sign, query
    or fragment: [http.NewRequest] parses the string, and the request
    carries the parsed URL, which is written out with the path escaped.  A
    path in which every byte is allowed in an encoded path is written as it
    is; otherwise every byte that is not a letter, a digit or one of
    [-_.~$&+,/:;=@] becomes a percent sign and two upper-case hexadecimal
    digits. *)













(** ** Worlds and libraries with real paths *)






(** * Properties *)

(** ** The title-to-slug map *)

(** Two entries with the title [x]: the later slug is the one looked up. *)
Example buildSlugMap_duplicate :
  let entry t s := {| ArtifactType := "file"; IsPublicPageEnabled := false;
                      Slug := s; Title := t |} in
  buildSlugMap [entry "x" "s1"; entry "y" "s2"; entry "x" "s3"] !! "x" = Some "s3"
  ∧ dom (buildSlugMap [entry "x" "s1"; entry "y" "s2"; entry "x" "s3"])
    = {[ "x"; "y" ]}.
Proof. split; by vm_compute. Qed.

Lemma buildSlugMap_snoc (data : list ArtifactSummary) (a : ArtifactSummary) :
  buildSlugMap (data ++ [a]) = <[Title a := Slug a]> (buildSlugMap data).
Proof. unfold buildSlugMap. by rewrite foldl_app. Qed.

Lemma buildSlugMap_lookup (data : list ArtifactSummary) (t : string) :
  buildSlugMap data !! t = Slug <$> last (withTitle t data).
Proof.
  induction data as [|a data IH] using rev_ind; [done|].
  rewrite buildSlugMap_snoc. unfold withTitle in *.
  rewrite filter_app, filter_cons, filter_nil.
  destruct (decide (Title a = t)) as [<-|Hne].
  - by rewrite lookup_insert_eq, last_snoc.
  - by rewrite lookup_insert_ne, app_nil_r.
Qed.

Lemma buildSlugMap_dom (data : list ArtifactSummary) :
  dom (buildSlugMap data) = list_to_set (Title <$> data).
Proof.
  induction data as [|a data IH] using rev_ind; [apply dom_empty_L|].
  rewrite buildSlugMap_snoc, dom_insert_L, IH, fmap_app, list_to_set_app_L.
  simpl. rewrite union_empty_r_L. apply (comm_L (∪)).
Qed.

(** The last element of a filtered list is the last element of the list that
    passes the filter. *)
Lemma last_withTitle (t : string) (data : list ArtifactSummary) (a : ArtifactSummary) :
  last (withTitle t data) = Some a ↔
  ∃ before after, data = before ++ a :: after ∧ Title a = t
                  ∧ Forall (λ b, Title b ≠ t) after.
Proof.
  unfold withTitle. split.
  - induction data as [|x data IH] using rev_ind; [done|].
    rewrite filter_app, filter_cons, filter_nil.
    destruct (decide (Title x = t)) as [Hx|Hx].
    + rewrite last_snoc. intros [= ->]. exists data, []. by rewrite Forall_nil.
    + rewrite app_nil_r. intros (before & after & -> & Ht & Hafter)%IH.
      exists before, (after ++ [x]). rewrite <- app_assoc. simpl.
      split_and!; [done..|]. apply Forall_app. by rewrite Forall_singleton.
  - intros (before & after & -> & Ht & Hafter).
    rewrite filter_app, filter_cons_True by done.
    replace (filter (λ b, Title b = t) after) with (@nil ArtifactSummary).
    + by rewrite last_snoc.
    + symmetry. induction Hafter as [|b after Hb _ IH]; [done|].
      by rewrite filter_cons_False.
Qed.

(** C1: the map built by [mainE] from a listing has exactly the titles that
    occur in the listing as its keys, and each title is mapped to the slug of
    the last entry of the listing that carries this title. *)
Theorem slug_map_last_wins (data : list ArtifactSummary) :
  dom (buildSlugMap data) = list_to_set (Title <$> data)
  ∧ (∀ t, buildSlugMap data !! t = Slug <$> last (withTitle t data))
  ∧ (∀ t s, buildSlugMap data !! t = Some s ↔
       ∃ before a after, data = before ++ a :: after
         ∧ Title a = t ∧ Slug a = s ∧ Forall (λ b, Title b ≠ t) after).
Proof.
  split_and!; [apply buildSlugMap_dom | apply buildSlugMap_lookup |].
  intros t s. rewrite buildSlugMap_lookup, fmap_Some. split.
  - intros (a & (before & after & ? & ? & ?)%last_withTitle & ->).
    by exists before, a, after.
  - intros (before & a & after & ? & ? & ? & ?). exists a. split; [|done].
    apply last_withTitle. by exists before, after.
Qed.

(** ** Strings *)

Lemma string_app_assoc (a b c : string) : (a +:+ b) +:+ c = a +:+ b +:+ c.
Proof.
  induction a as [|x a IH]; [done|].
  change (String x ((a +:+ b) +:+ c) = String x (a +:+ b +:+ c)).
  by rewrite IH.
Qed.

Lemma string_app_nil_r (a : string) : a +:+ "" = a.
Proof.
  induction a as [|x a IH]; [done|].
  change (String x (a +:+ "") = String x a). by rewrite IH.
Qed.

Lemma Contains_refl (s : string) : Contains s s.
Proof. exists "", "". by rewrite string_app_nil_r. Qed.

Lemma Contains_app_r (x p s : string) : Contains x s → Contains x (p +:+ s).
Proof.
  intros (pre & post & ->). exists (p +:+ pre), post.
  by rewrite string_app_assoc.
Qed.

Lemma Contains_app_l (x s q : string) : Contains x s → Contains x (s +:+ q).
Proof.
  intros (pre & post & ->). exists pre, (post +:+ q).
  by rewrite !string_app_assoc.
Qed.

Lemma Contains_trans (x y s : string) :
  Contains x y → Contains y s → Contains x s.
Proof.
  intros Hxy (pre & post & ->).
  by apply Contains_app_r, Contains_app_l.
Qed.

Lemma Contains_concat (sep x : string) (l : list string) :
  x ∈ l → Contains x (String.concat sep l).
Proof.
  induction l as [|y l IH]; [by intros ?%elem_of_nil|].
  intros [->|Hx]%elem_of_cons.
  - destruct l as [|z l]; [apply Contains_refl|].
    cbn. apply Contains_app_l, Contains_refl.
  - destruct l as [|z l]; [by apply elem_of_nil in Hx|].
    change (Contains x (y +:+ sep +:+ String.concat sep (z :: l))).
    by apply Contains_app_r, Contains_app_r, IH.
Qed.

(** ** Traces *)

Lemma after_nil (st : State) : after st [] = st.
Proof. destruct st. unfold after. simpl. by rewrite app_nil_r. Qed.

Lemma after_after (st : State) (tr1 tr2 : list Event) :
  after (after st tr1) tr2 = after st (tr1 ++ tr2).
Proof. unfold after. simpl. by rewrite app_assoc. Qed.

Lemma emit_after (e : Event) (st : State) : emit e st = (tt, after st [e]).
Proof. done. Qed.

Lemma responseBodyCloser_run (resp : Response) (st : State) :
  responseBodyCloser resp st
  = (tt, after st (closing (bodyId (body resp)) (stream (body resp)))).
Proof.
  unfold responseBodyCloser, closing, bind.
  rewrite emit_after. destruct (closeErr _); [|done].
  by rewrite emit_after, after_after.
Qed.

(** ** The HTTP client *)

Lemma Header_Add_empty (k v : string) : Header_Add k v ∅ = {[ k := [v] ]}.
Proof. unfold Header_Add. by rewrite lookup_empty. Qed.

Lemma http_Client_Do_run (W : World) (c : http_Client) (req : Request) (st : State) :
  http_Client_Do W c req st =
  match Do W c req with
  | inl err => (inl err, after st [EvDo c req None])
  | inr raw =>
      (inr {| StatusCode := rawStatus raw;
              body := {| bodyId := nextBody st; stream := rawBody raw |} |},
       afterDo st c req)
  end.
Proof. done. Qed.

Lemma get_run (L : Lib) (W : World) (c : Client) (endpoint : string) (st : State) :
  get L W c endpoint st =
  match http_NewRequest_err L "GET" (URL (apiRequest c endpoint)) with
  | Some err => (inl err, st)
  | None => http_Client_Do W (httpClient c) (apiRequest c endpoint) st
  end.
Proof.
  unfold get, http_NewRequest, apiRequest. simpl.
  destruct (http_NewRequest_err L _ _); [done|].
  simpl. by rewrite Header_Add_empty.
Qed.

Lemma http_Get_run (L : Lib) (W : World) (url : string) (st : State) :
  http_Get L W url st =
  match http_NewRequest_err L "GET" url with
  | Some err => (inl err, st)
  | None => http_Client_Do W http_DefaultClient (plainRequest url) st
  end.
Proof.
  unfold http_Get, http_NewRequest, plainRequest.
  by destruct (http_NewRequest_err L _ _).
Qed.

(** What a call of [get] can leave behind: nothing, a failed request, or a
    request that obtained a fresh body. *)
Lemma get_cases (L : Lib) (W : World) (c : Client) (endpoint : string)
    (st : State) (r : error + Response) (st1 : State) :
  get L W c endpoint st = (r, st1) →
  (∃ err, r = inl err ∧ st1 = st)
  ∨ (∃ err, r = inl err
       ∧ st1 = after st [EvDo (httpClient c) (apiRequest c endpoint) None])
  ∨ (∃ raw, Do W (httpClient c) (apiRequest c endpoint) = inr raw
       ∧ r = inr {| StatusCode := rawStatus raw;
                    body := {| bodyId := nextBody st; stream := rawBody raw |} |}
       ∧ st1 = afterDo st (httpClient c) (apiRequest c endpoint)).
Proof.
  rewrite get_run, http_Client_Do_run.
  destruct (http_NewRequest_err L _ _) as [err|].
  { intros [= <- <-]. left. by exists err. }
  destruct (Do W _ _) as [err|raw] eqn:HDo; intros [= <- <-].
  - right; left. by exists err.
  - right; right. by exists raw.
Qed.

Lemma GetArtifactsForBuild_run (L : Lib) (W : World) (c : Client)
    (appSlug buildSlug : string) (st : State) :
  GetArtifactsForBuild L W c appSlug buildSlug st =
  match get L W c (listPath appSlug buildSlug) st with
  | (inl err, st1) => (inl err, st1)
  | (inr resp, st1) =>
      let b := body resp in
      if (StatusCode resp >=? 300) || (StatusCode resp <? 200)
      then (inl (Errorf ("failed to get artifacts with status code ("
                         +:+ fmt_d (StatusCode resp)
                         +:+ ") for [build_slug: " +:+ appSlug
                         +:+ ", app_slug: " +:+ buildSlug +:+ "]")),
            after st1 (closing (bodyId b) (stream b)))
      else (json_DecodeArtifacts L (stream b),
            after st1 (EvDecode (bodyId b) :: closing (bodyId b) (stream b)))
  end.
Proof.
  unfold GetArtifactsForBuild, listPath, bind.
  destruct (get L W c _ st) as [[err|resp] st1]; [done|].
  destruct (_ || _); unfold DecodeArtifacts, bind, ret;
    rewrite ?emit_after, responseBodyCloser_run, ?after_after; done.
Qed.

Lemma GetArtifactDetails_run (L : Lib) (W : World) (c : Client)
    (appSlug buildSlug artifactSlug : string) (st : State) :
  GetArtifactDetails L W c appSlug buildSlug artifactSlug st =
  match get L W c (detailPath appSlug buildSlug artifactSlug) st with
  | (inl err, st1) => (inl err, st1)
  | (inr resp, st1) =>
      let b := body resp in
      if (StatusCode resp >=? 300) || (StatusCode resp <? 200)
      then (inl (Errorf ("failed to get artifact details with status code ("
                         +:+ fmt_d (StatusCode resp)
                         +:+ ") for [build_slug: " +:+ appSlug
                         +:+ ", app_slug: " +:+ buildSlug +:+ "]")),
            after st1 (closing (bodyId b) (stream b)))
      else (json_DecodeArtifact L (stream b),
            after st1 (EvDecode (bodyId b) :: closing (bodyId b) (stream b)))
  end.
Proof.
  unfold GetArtifactDetails, detailPath, bind.
  destruct (get L W c _ st) as [[err|resp] st1]; [done|].
  destruct (_ || _); unfold DecodeArtifact, bind, ret;
    rewrite ?emit_after, responseBodyCloser_run, ?after_after; done.
Qed.

Lemma issued_refl (st : State) : issued st st = [].
Proof. unfold issued. apply drop_all. Qed.

Lemma issued_after (st : State) (tr : list Event) : issued st (after st tr) = tr.
Proof. unfold issued, after. simpl. apply drop_app_length. Qed.

Lemma issued_afterDo (st : State) (c : http_Client) (req : Request) :
  issued st (afterDo st c req) = [EvDo c req (Some (nextBody st))].
Proof. unfold issued, afterDo. simpl. apply drop_app_length. Qed.

(** Every request [get] hands to the network is the API request for the
    endpoint, sent with the client's own HTTP client. *)
Lemma get_issued (L : Lib) (W : World) (c : Client) (endpoint : string)
    (st : State) (r : error + Response) (st1 : State)
    (c' : http_Client) (req : Request) (got : option nat) :
  get L W c endpoint st = (r, st1) →
  EvDo c' req got ∈ issued st st1 →
  c' = httpClient c ∧ req = apiRequest c endpoint.
Proof.
  intros [(err & -> & ->)|[(err & -> & ->)|(raw & _ & -> & ->)]]%get_cases.
  - rewrite issued_refl. by intros ?%elem_of_nil.
  - rewrite issued_after. by intros [= -> -> _]%list_elem_of_singleton.
  - rewrite issued_afterDo. by intros [= -> -> _]%list_elem_of_singleton.
Qed.

Ltac solve_contains :=
  repeat first
    [ apply Contains_refl
    | apply Contains_app_l, Contains_refl
    | apply Contains_app_r ].

(** C10: the [Authorization] value of every request issued through
    [Client.get] is the word [token], a space and the client's token, and the
    request has no other header. *)
Theorem get_authorization_value (L : Lib) (W : World) (c : Client)
    (endpoint : string) (st : State) (r : error + Response) (st1 : State)
    (c' : http_Client) (req : Request) (got : option nat) :
  get L W c endpoint st = (r, st1) →
  EvDo c' req got ∈ issued st st1 →
  Header req !! "Authorization" = Some ["token " +:+ authToken c]
  ∧ Header req = {[ "Authorization" := ["token " +:+ authToken c] ]}.
Proof.
  intros Hget Hin. destruct (get_issued _ _ _ _ _ _ _ _ _ _ Hget Hin) as [-> ->].
  split; [apply lookup_singleton_eq|done].
Qed.

(** ** Status codes are looked at before the body *)

Lemma decoded_app (tr1 tr2 : list Event) :
  decoded (tr1 ++ tr2) = decoded tr1 ++ decoded tr2.
Proof. apply omap_app. Qed.

Lemma closed_app (tr1 tr2 : list Event) :
  closed (tr1 ++ tr2) = closed tr1 ++ closed tr2.
Proof. apply omap_app. Qed.

Lemma obtained_app (tr1 tr2 : list Event) :
  obtained (tr1 ++ tr2) = obtained tr1 ++ obtained tr2.
Proof. apply omap_app. Qed.

Lemma requests_app (tr1 tr2 : list Event) :
  requests (tr1 ++ tr2) = requests tr1 ++ requests tr2.
Proof. apply omap_app. Qed.

Lemma requests_cons (e : Event) (tr : list Event) :
  requests (e :: tr)
  = match e with EvDo _ req _ => [req] | _ => [] end ++ requests tr.
Proof. by destruct e. Qed.

Lemma decoded_closing (b : nat) (s : Stream) : decoded (closing b s) = [].
Proof. unfold closing. by destruct (closeErr s). Qed.

Lemma closed_closing (b : nat) (s : Stream) : closed (closing b s) = [b].
Proof. unfold closing. by destruct (closeErr s). Qed.

Lemma obtained_closing (b : nat) (s : Stream) : obtained (closing b s) = [].
Proof. unfold closing. by destruct (closeErr s). Qed.

Lemma requests_closing (b : nat) (s : Stream) : requests (closing b s) = [].
Proof. unfold closing. by destruct (closeErr s). Qed.

Lemma get_decoded (L : Lib) (W : World) (c : Client) (endpoint : string)
    (st : State) (r : error + Response) (st1 : State) :
  get L W c endpoint st = (r, st1) →
  decoded (events st1) = decoded (events st).
Proof.
  intros [(err & -> & ->)|[(err & -> & ->)|(raw & _ & -> & ->)]]%get_cases;
    [done|..]; simpl; by rewrite decoded_app, app_nil_r.
Qed.

Lemma non2xx_test (code : Z) :
  code < 200 ∨ 300 ≤ code → (code >=? 300) || (code <? 200) = true.
Proof.
  intros Hcode. apply orb_true_iff.
  rewrite Z.geb_le, Z.ltb_lt. lia.
Qed.

(** C3: when the listing or the detail endpoint answers with a status code
    outside [200,300), the call returns the status error made by
    [fmt.Errorf], in which the status code and the two slugs occur; the
    decoder never reads the body (the error is not a decode error), and the
    body is closed. *)
Theorem non2xx_short_circuits (L : Lib) (W : World) (c : Client)
    (appSlug buildSlug artifactSlug : string) (st : State) :
  (∀ resp st1,
     get L W c (listPath appSlug buildSlug) st = (inr resp, st1) →
     StatusCode resp < 200 ∨ 300 ≤ StatusCode resp →
     ∃ msg st2,
       GetArtifactsForBuild L W c appSlug buildSlug st = (inl (Errorf msg), st2)
       ∧ msg = "failed to get artifacts with status code ("
               +:+ fmt_d (StatusCode resp) +:+ ") for [build_slug: " +:+ appSlug
               +:+ ", app_slug: " +:+ buildSlug +:+ "]"
       ∧ Contains (fmt_d (StatusCode resp)) msg
       ∧ Contains appSlug msg ∧ Contains buildSlug msg
       ∧ is_decode_error (Errorf msg) = false
       ∧ decoded (events st2) = decoded (events st)
       ∧ bodyId (body resp) ∈ closed (issued st1 st2))
  ∧ (∀ resp st1,
     get L W c (detailPath appSlug buildSlug artifactSlug) st = (inr resp, st1) →
     StatusCode resp < 200 ∨ 300 ≤ StatusCode resp →
     ∃ msg st2,
       GetArtifactDetails L W c appSlug buildSlug artifactSlug st
         = (inl (Errorf msg), st2)
       ∧ msg = "failed to get artifact details with status code ("
               +:+ fmt_d (StatusCode resp) +:+ ") for [build_slug: " +:+ appSlug
               +:+ ", app_slug: " +:+ buildSlug +:+ "]"
       ∧ Contains (fmt_d (StatusCode resp)) msg
       ∧ Contains appSlug msg ∧ Contains buildSlug msg
       ∧ is_decode_error (Errorf msg) = false
       ∧ decoded (events st2) = decoded (events st)
       ∧ bodyId (body resp) ∈ closed (issued st1 st2)).
Proof.
  split; intros resp st1 Hget Hcode.
  - rewrite GetArtifactsForBuild_run, Hget. simpl.
    rewrite (non2xx_test _ Hcode). eexists _, _.
    split; [reflexivity|]. split; [reflexivity|].
    split_and!; [solve_contains..|done| |].
    + simpl. rewrite decoded_app, decoded_closing, app_nil_r.
      by eapply get_decoded.
    + rewrite issued_after, closed_closing. apply list_elem_of_singleton. done.
  - rewrite GetArtifactDetails_run, Hget. simpl.
    rewrite (non2xx_test _ Hcode). eexists _, _.
    split; [reflexivity|]. split; [reflexivity|].
    split_and!; [solve_contains..|done| |].
    + simpl. rewrite decoded_app, decoded_closing, app_nil_r.
      by eapply get_decoded.
    + rewrite issued_after, closed_closing. apply list_elem_of_singleton. done.
Qed.

(** ** Configuration errors *)

Lemma firstMissing_Some (W : World) (k0 : string) :
  k0 ∈ requiredEnv → Getenv W k0 = "" → is_Some (firstMissing W).
Proof.
  intros Hin Hk0. unfold firstMissing.
  destruct (List.find _ _) as [k|] eqn:Hfind; [by exists k|].
  apply list_elem_of_In in Hin.
  pose proof (List.find_none _ _ Hfind _ Hin) as Hnone. simpl in Hnone.
  by rewrite bool_decide_eq_true_2 in Hnone.
Qed.

Lemma mainE_firstMissing (L : Lib) (W : World) (st : State) (k : string) :
  firstMissing W = Some k → mainE L W st = (Some (errNoEnv k), st).
Proof.
  unfold firstMissing, requiredEnv, mainE. simpl.
  repeat (case_bool_decide;
          [intros [= <-]; by rewrite ?decide_True, ?decide_False by done
          |rewrite (decide_False (P := _ = "")) by done]).
  done.
Qed.

(** C4: when one of the four required variables is unset, [mainE] returns
    the configuration error that names the first unset one, in the order
    [API_AUTH_TOKEN], [APP_SLUG], [WORKFLOW_SLUG_ID], [ARTIFACT_NAME]; the
    state is left as it was, so no request has been sent and nothing has
    been done to the file system. *)
Theorem missing_env_is_reported (L : Lib) (W : World) (st : State) (k0 : string) :
  k0 ∈ requiredEnv →
  Getenv W k0 = "" →
  ∃ k, firstMissing W = Some k
    ∧ k ∈ requiredEnv ∧ Getenv W k = ""
    ∧ mainE L W st = (Some (errNoEnv k), st)
    ∧ Error (errNoEnv k) = "environment variable (" +:+ k +:+ ") is not set"
    ∧ Contains k (Error (errNoEnv k))
    ∧ issued st (mainE L W st).2 = []
    ∧ requests (issued st (mainE L W st).2) = []
    ∧ filter (λ e, is_fs_event e = true) (issued st (mainE L W st).2) = []
    ∧ fs (mainE L W st).2 = fs st.
Proof.
  intros Hin Hk0.
  destruct (firstMissing_Some W k0 Hin Hk0) as [k Hk]. exists k.
  pose proof (mainE_firstMissing L W st k Hk) as Hrun.
  apply List.find_some in Hk as Hfound. destruct Hfound as [Hreq Hempty].
  apply list_elem_of_In in Hreq. apply bool_decide_eq_true_1 in Hempty.
  rewrite Hrun. simpl. rewrite issued_refl.
  split_and!; try done. solve_contains.
Qed.

(** ** Successful API calls, read backwards *)

Lemma issued_events (st st1 : State) (tr : list Event) :
  events st1 = events st ++ tr → issued st st1 = tr.
Proof. unfold issued. intros ->. apply drop_app_length. Qed.

Lemma status_2xx (code : Z) :
  (code >=? 300) || (code <? 200) = false → 200 ≤ code < 300.
Proof.
  intros [H1 H2]%orb_false_iff.
  rewrite Z.geb_leb in H1. apply Z.leb_gt in H1. apply Z.ltb_ge in H2. lia.
Qed.

Lemma GetArtifactsForBuild_ok (L : Lib) (W : World) (c : Client)
    (appSlug buildSlug : string) (st : State) (artifacts : Artifacts) (st2 : State) :
  GetArtifactsForBuild L W c appSlug buildSlug st = (inr artifacts, st2) →
  ∃ raw,
    Do W (httpClient c) (apiRequest c (listPath appSlug buildSlug)) = inr raw
    ∧ 200 ≤ rawStatus raw < 300
    ∧ json_DecodeArtifacts L (rawBody raw) = inr artifacts
    ∧ st2 = after (afterDo st (httpClient c)
                     (apiRequest c (listPath appSlug buildSlug)))
                  (EvDecode (nextBody st) :: closing (nextBody st) (rawBody raw)).
Proof.
  rewrite GetArtifactsForBuild_run.
  destruct (get L W c _ st) as [[err|resp] st1] eqn:Hget; [done|].
  apply get_cases in Hget
    as [(err & [=] & _)|[(err & [=] & _)|(raw & HDo & [= ->] & ->)]].
  simpl. destruct (_ || _) eqn:Hcode; [done|]. intros [= Hdec <-].
  exists raw. split_and!; [done|by apply status_2xx..|done|done].
Qed.

Lemma GetArtifactDetails_ok (L : Lib) (W : World) (c : Client)
    (appSlug buildSlug artifactSlug : string) (st : State)
    (artifact : Artifact) (st2 : State) :
  GetArtifactDetails L W c appSlug buildSlug artifactSlug st = (inr artifact, st2) →
  ∃ raw,
    Do W (httpClient c) (apiRequest c (detailPath appSlug buildSlug artifactSlug))
      = inr raw
    ∧ 200 ≤ rawStatus raw < 300
    ∧ json_DecodeArtifact L (rawBody raw) = inr artifact
    ∧ st2 = after (afterDo st (httpClient c)
                     (apiRequest c (detailPath appSlug buildSlug artifactSlug)))
                  (EvDecode (nextBody st) :: closing (nextBody st) (rawBody raw)).
Proof.
  rewrite GetArtifactDetails_run.
  destruct (get L W c _ st) as [[err|resp] st1] eqn:Hget; [done|].
  apply get_cases in Hget
    as [(err & [=] & _)|[(err & [=] & _)|(raw & HDo & [= ->] & ->)]].
  simpl. destruct (_ || _) eqn:Hcode; [done|]. intros [= Hdec <-].
  exists raw. split_and!; [done|by apply status_2xx..|done|done].
Qed.

Lemma DownloadArtifact_run (L : Lib) (W : World) (c : Client)
    (appSlug buildSlug artifactSlug : string) (st : State) :
  DownloadArtifact L W c appSlug buildSlug artifactSlug st =
  match GetArtifactDetails L W c appSlug buildSlug artifactSlug st with
  | (inl err, st1) => (inl err, st1)
  | (inr artifact, st1) =>
      match http_Get L W (ExpiringDownloadURL (aData artifact)) st1 with
      | (inl err, st2) => (inl err, st2)
      | (inr resp, st2) => (inr (body resp), st2)
      end
  end.
Proof.
  unfold DownloadArtifact, bind.
  destruct (GetArtifactDetails _ _ _ _ _ _ _) as [[err|artifact] st1]; [done|].
  by destruct (http_Get _ _ _ _) as [[err|resp] st2].
Qed.

Lemma DownloadArtifact_ok (L : Lib) (W : World) (c : Client)
    (appSlug buildSlug artifactSlug : string) (st : State)
    (reader : Body) (st3 : State) :
  DownloadArtifact L W c appSlug buildSlug artifactSlug st = (inr reader, st3) →
  ∃ artifact st2 raw,
    GetArtifactDetails L W c appSlug buildSlug artifactSlug st = (inr artifact, st2)
    ∧ http_NewRequest_err L "GET" (ExpiringDownloadURL (aData artifact)) = None
    ∧ Do W http_DefaultClient (plainRequest (ExpiringDownloadURL (aData artifact)))
        = inr raw
    ∧ reader = {| bodyId := nextBody st2; stream := rawBody raw |}
    ∧ st3 = afterDo st2 http_DefaultClient
              (plainRequest (ExpiringDownloadURL (aData artifact))).
Proof.
  rewrite DownloadArtifact_run.
  destruct (GetArtifactDetails _ _ _ _ _ _ _) as [[err|artifact] st2]; [done|].
  rewrite http_Get_run, http_Client_Do_run.
  destruct (http_NewRequest_err L _ _) eqn:Hreq; [done|].
  destruct (Do W _ _) as [err|raw] eqn:HDo; [done|].
  intros [= <- <-]. by exists artifact, st2, raw.
Qed.

(** ** The steps of [mainE] *)

Lemma requiredEnv_set (W : World) :
  Forall (λ k, Getenv W k ≠ "") requiredEnv →
  Getenv W "API_AUTH_TOKEN" ≠ "" ∧ Getenv W "APP_SLUG" ≠ ""
  ∧ Getenv W "WORKFLOW_SLUG_ID" ≠ "" ∧ Getenv W "ARTIFACT_NAME" ≠ "".
Proof.
  unfold requiredEnv. rewrite !Forall_cons. tauto.
Qed.

(** With the four variables set, [mainE] is the chain of its remaining
    steps, each of which ends the run when it fails. *)
Lemma mainE_run (L : Lib) (W : World) (st : State) :
  Forall (λ k, Getenv W k ≠ "") requiredEnv →
  let name := Getenv W "ARTIFACT_NAME" in
  let dir := downloadDirOf W in
  let c := New (Getenv W "API_AUTH_TOKEN") in
  let appSlug := Getenv W "APP_SLUG" in
  let buildSlug := Getenv W "WORKFLOW_SLUG_ID" in
  let file := filepath_Join L dir name in
  mainE L W st =
  match MkdirAll W dir os_ModePerm with
  | Some err => (Some err, after st [EvMkdirAll dir os_ModePerm])
  | None =>
  match GetArtifactsForBuild L W c appSlug buildSlug
          (after st [EvMkdirAll dir os_ModePerm]) with
  | (inl err, st2) => (Some err, st2)
  | (inr artifacts, st2) =>
  match buildSlugMap (Data artifacts) !! name with
  | None =>
      match json_MarshalIndent L (buildSlugMap (Data artifacts)) with
      | inl err => (Some err, st2)
      | inr keys =>
          (Some (Errorf ("unable to find artifact with name (" +:+ name
                         +:+ "), available artifacts:" +:+ LF +:+ keys)), st2)
      end
  | Some artifactSlug =>
  match DownloadArtifact L W c appSlug buildSlug artifactSlug st2 with
  | (inl err, st3) => (Some err, st3)
  | (inr reader, st3) =>
  match Create W file with
  | Some err => (Some err, st3)
  | None =>
  match io_Copy W file reader (afterCreate st3 file) with
  | ((n, Some err), st5) => (Some err, st5)
  | ((n, None), st5) =>
      (None, after st5 [EvStdout ("done, [" +:+ fmt_d n
                                   +:+ " byte] downloaded" +:+ LF)])
  end end end end end end.
Proof.
  intros (Htoken & Happ & Hbuild & Hname)%requiredEnv_set.
  cbv zeta. unfold mainE. cbv zeta.
  rewrite (decide_False (P := Getenv W "API_AUTH_TOKEN" = "")) by done.
  rewrite (decide_False (P := Getenv W "APP_SLUG" = "")) by done.
  rewrite (decide_False (P := Getenv W "WORKFLOW_SLUG_ID" = "")) by done.
  rewrite (decide_False (P := Getenv W "ARTIFACT_NAME" = "")) by done.
  fold (downloadDirOf W).
  unfold bind at 1. unfold os_MkdirAll, bind at 1. rewrite emit_after.
  unfold ret at 1.
  destruct (MkdirAll W _ _) as [err|]; [done|].
  unfold bind at 1.
  destruct (GetArtifactsForBuild _ _ _ _ _ _) as [[err|artifacts] st2]; [done|].
  destruct (buildSlugMap _ !! _) as [artifactSlug|].
  2: { by destruct (json_MarshalIndent _ _). }
  unfold bind at 1.
  destruct (DownloadArtifact _ _ _ _ _ _ _) as [[err|reader] st3]; [done|].
  unfold bind at 1, os_Create.
  destruct (Create W _) as [err|]; [done|].
  fold (afterCreate st3 (filepath_Join L (downloadDirOf W) (Getenv W "ARTIFACT_NAME"))).
  unfold bind at 1.
  destruct (io_Copy _ _ _ _) as [[n [err|]] st5]; [done|].
  simpl. unfold bind. by rewrite emit_after.
Qed.

(** ** An artifact name that is not in the listing *)

Lemma sortedEntries_elem (m : gmap string string) (t s : string) :
  m !! t = Some s → (t, s) ∈ sortedEntries m.
Proof.
  intros Hts. unfold sortedEntries.
  rewrite merge_sort_Permutation. by apply elem_of_map_to_list.
Qed.

Lemma json_MarshalIndent_member (L : Lib) (m : gmap string string)
    (t s keys : string) :
  m !! t = Some s → json_MarshalIndent L m = inr keys →
  Contains (json_member L (t, s)) keys.
Proof.
  intros Hin%sortedEntries_elem. unfold json_MarshalIndent.
  destruct (sortedEntries m) as [|e es] eqn:Hes; [by apply elem_of_nil in Hin|].
  intros Hkeys. apply (inj inr) in Hkeys. rewrite <- Hkeys.
  apply Contains_app_r, Contains_app_r, Contains_app_l, Contains_concat.
  by apply (list_elem_of_fmap_2 (json_member L)).
Qed.

(** Members come out in the order of their keys. *)
Example json_MarshalIndent_sorted :
  json_MarshalIndent demoLib {[ "b.ipa" := "s2"; "a.apk" := "s1" ]}
  = inr ("{" +:+ LF
         +:+ "  " +:+ quoted "a.apk" +:+ ": " +:+ quoted "s1" +:+ "," +:+ LF
         +:+ "  " +:+ quoted "b.ipa" +:+ ": " +:+ quoted "s2" +:+ LF
         +:+ "}")
  ∧ json_MarshalIndent demoLib ∅ = inr "{}".
Proof. split; by vm_compute. Qed.

Lemma json_MarshalIndent_total (L : Lib) (m : gmap string string) :
  ∃ keys, json_MarshalIndent L m = inr keys.
Proof. unfold json_MarshalIndent. by eexists. Qed.

Lemma main_run (L : Lib) (W : World) (st : State) :
  main L W st =
  match mainE L W st with
  | (Some err, st1) => (1, after st1 [EvStdout ("Error: " +:+ Error err +:+ LF)])
  | (None, st1) => (0, st1)
  end.
Proof.
  unfold main, bind. destruct (mainE L W st) as [[err|] st1]; [|done].
  by rewrite emit_after.
Qed.

(** C2: with the configuration complete and the listing obtained, a display
    name that is not a key of the title-to-slug map ends the run: [mainE]
    returns an error whose message has the text
    [unable to find artifact with name (<name>)] and the JSON member of every
    pair of the map, so that every title of the listing occurs in it;
    [main] prints it and exits with 1; the listing request is the only
    request of the whole run. *)
Theorem unknown_artifact_is_reported (L : Lib) (W : World) (st : State)
    (artifacts : Artifacts) (st2 : State) :
  let name := Getenv W "ARTIFACT_NAME" in
  let c := New (Getenv W "API_AUTH_TOKEN") in
  let appSlug := Getenv W "APP_SLUG" in
  let buildSlug := Getenv W "WORKFLOW_SLUG_ID" in
  Forall (λ k, Getenv W k ≠ "") requiredEnv →
  MkdirAll W (downloadDirOf W) os_ModePerm = None →
  GetArtifactsForBuild L W c appSlug buildSlug
    (after st [EvMkdirAll (downloadDirOf W) os_ModePerm]) = (inr artifacts, st2) →
  buildSlugMap (Data artifacts) !! name = None →
  ∃ msg,
    mainE L W st = (Some (Errorf msg), st2)
    ∧ main L W st = (1, after st2 [EvStdout ("Error: " +:+ msg +:+ LF)])
    ∧ Contains ("unable to find artifact with name (" +:+ name +:+ ")") msg
    ∧ (∀ t s, buildSlugMap (Data artifacts) !! t = Some s →
         Contains (json_member L (t, s)) msg)
    ∧ (∀ a, a ∈ Data artifacts → Contains (json_encodeString L (Title a)) msg)
    ∧ requests (issued st (main L W st).2)
      = [apiRequest c (listPath appSlug buildSlug)].
Proof.
  intros name c appSlug buildSlug Henv Hmk Hlist Hnone.
  pose proof (mainE_run L W st Henv) as Hrun. cbv zeta in Hrun.
  fold name c appSlug buildSlug in Hrun.
  rewrite Hmk, Hlist, Hnone in Hrun.
  destruct (json_MarshalIndent_total L (buildSlugMap (Data artifacts)))
    as [keys Hkeys].
  rewrite Hkeys in Hrun. eexists. split; [exact Hrun|].
  rewrite main_run, Hrun. simpl Error.
  assert (∀ t s, buildSlugMap (Data artifacts) !! t = Some s →
            Contains (json_member L (t, s))
              ("unable to find artifact with name (" +:+ name
               +:+ "), available artifacts:" +:+ LF +:+ keys)) as Hpairs.
  { intros t s Hts. do 4 apply Contains_app_r.
    by apply (json_MarshalIndent_member L (buildSlugMap (Data artifacts)) t s). }
  split_and!; [done| |done| |].
  - exists "", (", available artifacts:" +:+ LF +:+ keys).
    by rewrite !string_app_assoc.
  - intros a Ha.
    assert (Title a ∈ dom (buildSlugMap (Data artifacts))) as Hdom.
    { rewrite buildSlugMap_dom. apply elem_of_list_to_set.
      by apply (list_elem_of_fmap_2 Title). }
    apply elem_of_dom in Hdom as [s Hs].
    eapply Contains_trans; [|exact (Hpairs (Title a) s Hs)].
    unfold json_member. simpl. solve_contains.
  - apply GetArtifactsForBuild_ok in Hlist as (raw & _ & _ & _ & ->).
    erewrite issued_events; last first.
    { simpl. rewrite <- !app_assoc. reflexivity. }
    rewrite !requests_app, !requests_cons, requests_closing. done.
Qed.

(** C8: [main] exits with 0 when [mainE] returns no error and with 1 when
    it returns one, and in that case the one thing it prints to standard
    output is [Error: ], the error's message and a line break. *)
Theorem main_exit_status (L : Lib) (W : World) (st : State)
    (r : option error) (st1 : State) :
  mainE L W st = (r, st1) →
  match r with
  | None => main L W st = (0, st1)
  | Some err =>
      main L W st = (1, after st1 [EvStdout ("Error: " +:+ Error err +:+ LF)])
      ∧ printed (issued st1 (main L W st).2) = ["Error: " +:+ Error err +:+ LF]
      ∧ Contains (Error err) ("Error: " +:+ Error err +:+ LF)
  end.
Proof.
  intros Hrun. rewrite main_run, Hrun. destruct r as [err|]; [|done].
  simpl. rewrite issued_after. split_and!; [done..|]. solve_contains.
Qed.

(** ** A successful run *)

Lemma mainE_None_env (L : Lib) (W : World) (st st' : State) :
  mainE L W st = (None, st') → Forall (λ k, Getenv W k ≠ "") requiredEnv.
Proof.
  intros Hrun. destruct (firstMissing W) as [k|] eqn:Hmiss.
  { by rewrite (mainE_firstMissing L W st k Hmiss) in Hrun. }
  apply Forall_forall. intros k Hk%list_elem_of_In Hempty.
  pose proof (List.find_none _ _ Hmiss k Hk) as Hnone. simpl in Hnone.
  by rewrite bool_decide_eq_true_2 in Hnone.
Qed.

Lemma io_Copy_ok (W : World) (file : string) (reader : Body)
    (st : State) (n : Z) (st5 : State) :
  io_Copy W file reader st = ((n, None), st5) →
  let data := content (stream reader) in
  n = Z.of_nat (length data)
  ∧ events st5 = events st ++ [EvCopy (bodyId reader) file n]
  ∧ fs st5 = <[file := default [] (fs st !! file) ++ data]> (fs st)
  ∧ nextBody st5 = nextBody st.
Proof.
  unfold io_Copy.
  destruct (WriteFault W file) as [[k werr]|];
    [destruct (k <? length _)%nat; [done|]|];
    by intros [= <- Hread <-].
Qed.


(** ** Response bodies *)

Lemma wf_afterDo (st : State) (c : http_Client) (req : Request) :
  wf st → wf (afterDo st c req).
Proof.
  unfold wf, afterDo. simpl. intros Hwf b.
  rewrite obtained_app, closed_app, !elem_of_app. simpl.
  rewrite list_elem_of_singleton, elem_of_nil.
  intros [[Hb| ->]|[Hb|[]]]; [|lia|]; enough (b < nextBody st)%nat by lia; auto.
Qed.

Lemma wf_after (st : State) (tr : list Event) :
  wf st →
  (∀ b, b ∈ obtained tr ∨ b ∈ closed tr → (b < nextBody st)%nat) →
  wf (after st tr).
Proof.
  unfold wf, after. simpl. intros Hwf Htr b.
  rewrite obtained_app, closed_app, !elem_of_app.
  intros [[Hb|Hb]|[Hb|Hb]]; auto.
Qed.

Lemma wf_initial : wf initial.
Proof. intros b [Hb|Hb]; by apply elem_of_nil in Hb. Qed.

Lemma get_wf (L : Lib) (W : World) (c : Client) (endpoint : string)
    (st : State) (r : error + Response) (st1 : State) :
  wf st → get L W c endpoint st = (r, st1) →
  wf st1 ∧ ∀ resp, r = inr resp → (bodyId (body resp) < nextBody st1)%nat.
Proof.
  intros Hwf [(err & -> & ->)|[(err & -> & ->)|(raw & _ & -> & ->)]]%get_cases.
  - done.
  - split; [|done]. apply wf_after; [done|]. simpl.
    intros b [Hb|Hb]; by apply elem_of_nil in Hb.
  - split; [by apply wf_afterDo|]. intros resp [= <-]. simpl. lia.
Qed.

Lemma GetArtifactDetails_wf (L : Lib) (W : World) (c : Client)
    (appSlug buildSlug artifactSlug : string) (st : State)
    (r : error + Artifact) (st1 : State) :
  wf st →
  GetArtifactDetails L W c appSlug buildSlug artifactSlug st = (r, st1) →
  wf st1.
Proof.
  intros Hwf. rewrite GetArtifactDetails_run.
  destruct (get L W c _ st) as [[err|resp] st0] eqn:Hget.
  { intros [= <- <-]. by eapply get_wf. }
  destruct (get_wf _ _ _ _ _ _ _ Hwf Hget) as [Hwf0 Hresp].
  specialize (Hresp resp eq_refl).
  assert (∀ tr, obtained tr = [] → closed tr = [bodyId (body resp)] →
            wf (after st0 tr)) as Hclose.
  { intros tr Hobt Hcl. apply wf_after; [done|]. rewrite Hobt, Hcl.
    intros b [Hb|Hb]; [by apply elem_of_nil in Hb|].
    by apply list_elem_of_singleton in Hb as ->. }
  simpl. destruct (_ || _); intros [= <- <-]; apply Hclose.
  - apply obtained_closing.
  - apply closed_closing.
  - apply (obtained_closing (bodyId (body resp))).
  - apply (closed_closing (bodyId (body resp))).
Qed.

(** C7: [DownloadArtifact] starts with [GetArtifactDetails].  When that
    fails, its error is the result and nothing else happens.  Otherwise the
    only thing that follows is one GET for the expiring URL, sent with the
    default client and an empty header (so without [Authorization]); when it
    is answered, the result is the body of the answer, which has not been
    closed. *)
Theorem DownloadArtifact_steps (L : Lib) (W : World) (c : Client)
    (appSlug buildSlug artifactSlug : string) (st : State)
    (r : error + Body) (st3 : State) :
  wf st →
  DownloadArtifact L W c appSlug buildSlug artifactSlug st = (r, st3) →
  ∃ rd st1,
    GetArtifactDetails L W c appSlug buildSlug artifactSlug st = (rd, st1)
    ∧ match rd with
      | inl err => r = inl err ∧ st3 = st1
      | inr artifact =>
          let req := plainRequest (ExpiringDownloadURL (aData artifact)) in
          Method req = "GET"
          ∧ URL req = ExpiringDownloadURL (aData artifact)
          ∧ Header req !! "Authorization" = None
          ∧ (∀ e, e ∈ issued st1 st3 → ∃ got, e = EvDo http_DefaultClient req got)
          ∧ match r with
            | inl err => True
            | inr reader =>
                ∃ raw, Do W http_DefaultClient req = inr raw
                  ∧ stream reader = rawBody raw
                  ∧ issued st1 st3
                    = [EvDo http_DefaultClient req (Some (bodyId reader))]
                  ∧ bodyId reader ∉ closed (events st3)
            end
      end.
Proof.
  intros Hwf. rewrite DownloadArtifact_run.
  destruct (GetArtifactDetails _ _ _ _ _ _ _) as [[err|artifact] st1] eqn:Hd.
  { intros [= <- <-]. by exists (inl err), st1. }
  apply GetArtifactDetails_wf in Hd; [|done].
  rewrite http_Get_run, http_Client_Do_run. intros Hrun.
  exists (inr artifact), st1. split; [done|]. cbv zeta.
  split_and!; try done.
  - destruct (http_NewRequest_err L _ _).
    { injection Hrun as <- <-. rewrite issued_refl. by intros ev ?%elem_of_nil. }
    destruct (Do W _ _) as [err|raw]; injection Hrun as <- <-.
    + rewrite issued_after. intros ev ->%list_elem_of_singleton. by eexists.
    + rewrite issued_afterDo. intros ev ->%list_elem_of_singleton. by eexists.
  - destruct (http_NewRequest_err L _ _); [by injection Hrun as <- <-|].
    destruct (Do W _ _) as [err|raw] eqn:HDo; injection Hrun as <- <-; [done|].
    exists raw. rewrite issued_afterDo. split_and!; try done.
    simpl. rewrite closed_app, app_nil_r. intros Hcl.
    specialize (Hd (nextBody st1) (or_intror Hcl)). lia.
Qed.

(** The two API calls close the body they obtain, on each of their ways
    out. *)
Lemma GetArtifactsForBuild_closes (L : Lib) (W : World) (c : Client)
    (appSlug buildSlug : string) (st : State)
    (r : error + Artifacts) (st1 : State) :
  GetArtifactsForBuild L W c appSlug buildSlug st = (r, st1) →
  closed (issued st st1) = obtained (issued st st1).
Proof.
  rewrite GetArtifactsForBuild_run.
  destruct (get L W c _ st) as [[err|resp] st0] eqn:Hget.
  - intros [= <- <-].
    apply get_cases in Hget
      as [(? & _ & ->)|[(? & _ & ->)|(? & _ & [=] & _)]].
    + by rewrite issued_refl.
    + by rewrite issued_after.
  - apply get_cases in Hget
      as [(? & [=] & _)|[(? & [=] & _)|(raw & _ & [= ->] & ->)]].
    simpl. destruct (_ || _); intros [= <- <-];
      (erewrite issued_events;
        [|simpl; rewrite <- !app_assoc; reflexivity]);
      unfold closed, obtained, closing; simpl;
      by destruct (closeErr (rawBody raw)).
Qed.

Lemma GetArtifactDetails_closes (L : Lib) (W : World) (c : Client)
    (appSlug buildSlug artifactSlug : string) (st : State)
    (r : error + Artifact) (st1 : State) :
  GetArtifactDetails L W c appSlug buildSlug artifactSlug st = (r, st1) →
  closed (issued st st1) = obtained (issued st st1).
Proof.
  rewrite GetArtifactDetails_run.
  destruct (get L W c _ st) as [[err|resp] st0] eqn:Hget.
  - intros [= <- <-].
    apply get_cases in Hget
      as [(? & _ & ->)|[(? & _ & ->)|(? & _ & [=] & _)]].
    + by rewrite issued_refl.
    + by rewrite issued_after.
  - apply get_cases in Hget
      as [(? & [=] & _)|[(? & [=] & _)|(raw & _ & [= ->] & ->)]].
    simpl. destruct (_ || _); intros [= <- <-];
      (erewrite issued_events;
        [|simpl; rewrite <- !app_assoc; reflexivity]);
      unfold closed, obtained, closing; simpl;
      by destruct (closeErr (rawBody raw)).
Qed.

(** A run of [mainE] that succeeds has obtained three bodies and closed the
    first two: the body [DownloadArtifact] returned stays open. *)
Lemma successful_run_leaves_download_open (L : Lib) (W : World) (st st' : State) :
  mainE L W st = (None, st') →
  obtained (issued st st')
  = [nextBody st; S (nextBody st); S (S (nextBody st))]
  ∧ closed (issued st st') = [nextBody st; S (nextBody st)].
Proof.
  intros Hrun.
  pose proof (mainE_None_env L W st st' Hrun) as Henv.
  rewrite (mainE_run L W st Henv) in Hrun. cbv zeta in Hrun.
  destruct (MkdirAll W _ _) as [err|]; [done|].
  destruct (GetArtifactsForBuild _ _ _ _ _ _)
    as [[err|artifacts] st2] eqn:Hlist; [done|].
  destruct (buildSlugMap _ !! _) as [artifactSlug|] eqn:Hslug; last first.
  { by destruct (json_MarshalIndent _ _). }
  destruct (DownloadArtifact _ _ _ _ _ _ _)
    as [[err|reader] st3] eqn:Hdl; [done|].
  destruct (Create W _) as [err|]; [done|].
  destruct (io_Copy _ _ _ _) as [[n [err|]] st5] eqn:Hcopy; [done|].
  injection Hrun as <-.
  apply io_Copy_ok in Hcopy as (-> & Hev5 & _ & _).
  apply DownloadArtifact_ok in Hdl
    as (artifact & st2' & raw & Hdetail & _ & HDo & -> & ->).
  apply GetArtifactDetails_ok in Hdetail as (rawD & _ & _ & _ & ->).
  apply GetArtifactsForBuild_ok in Hlist as (rawL & _ & _ & _ & ->).
  simpl in Hev5.
  erewrite issued_events; last first.
  { simpl. rewrite Hev5, <- !app_assoc. reflexivity. }
  unfold obtained, closed, closing. rewrite !omap_app. simpl.
  by destruct (closeErr (rawBody rawL)), (closeErr (rawBody rawD)).
Qed.

(** C9: on the run in which the listing names [app.apk] and all three
    requests are answered, [main] exits with 0; the bodies of the listing
    and of the detail response have been closed, the body of the download
    response (the third one obtained) has not. *)
Theorem download_body_left_open :
  let run := main demoLib (demoWorld "app.apk" 200 200) initial in
  run.1 = 0
  ∧ EvDo http_DefaultClient (plainRequest demoSignedURL) (Some 2%nat)
      ∈ events run.2
  ∧ obtained (events run.2) = [0; 1; 2]%nat
  ∧ closed (events run.2) = [0; 1]%nat
  ∧ 2%nat ∉ closed (events run.2).
Proof.
  cbv zeta.
  assert (closed (events (main demoLib (demoWorld "app.apk" 200 200) initial).2)
          = [0; 1]%nat) as Hclosed by (vm_compute; reflexivity).
  split_and!; [by vm_compute| |by vm_compute|done|].
  - vm_compute. do 7 apply list_elem_of_further. apply list_elem_of_here.
  - rewrite Hclosed. rewrite !not_elem_of_cons. split_and!; [lia..|].
    apply not_elem_of_nil.
Qed.

(** ** The properties on the concrete world *)

(** The [Authorization] value of the listing request of the concrete run. *)
Lemma get_authorization_value_witness :
  let req := apiRequest (New "s3cr3t") (listPath "app1" "build7") in
  Header req !! "Authorization" = Some ["token s3cr3t"]
  ∧ Header req = {[ "Authorization" := ["token s3cr3t"] ]}.
Proof.
  refine (get_authorization_value demoLib (demoWorld "app.apk" 200 200)
            (New "s3cr3t") (listPath "app1" "build7") initial
            (inr {| StatusCode := 200;
                    body := {| bodyId := 0;
                               stream := textStream demoListingJSON |} |})
            (afterDo initial (httpClient (New "s3cr3t"))
               (apiRequest (New "s3cr3t") (listPath "app1" "build7")))
            (httpClient (New "s3cr3t"))
            (apiRequest (New "s3cr3t") (listPath "app1" "build7"))
            (Some 0%nat) _ _).
  - reflexivity.
  - vm_compute. apply list_elem_of_here.
Defined.

(** A listing answered with 404 and a detail answered with 500. *)
Lemma non2xx_short_circuits_witness :
  let W := demoWorld "app.apk" 404 500 in
  let c := New "s3cr3t" in
  (∃ st2, GetArtifactsForBuild demoLib W c "app1" "build7" initial
          = (inl (Errorf "failed to get artifacts with status code (404) for [build_slug: app1, app_slug: build7]"), st2)
          ∧ decoded (events st2) = [])
  ∧ (∃ st2, GetArtifactDetails demoLib W c "app1" "build7" "abc123" initial
          = (inl (Errorf "failed to get artifact details with status code (500) for [build_slug: app1, app_slug: build7]"), st2)
          ∧ decoded (events st2) = []).
Proof.
  cbv zeta.
  destruct (non2xx_short_circuits demoLib (demoWorld "app.apk" 404 500)
              (New "s3cr3t") "app1" "build7" "abc123" initial) as [Hlist Hdetail].
  split.
  - destruct (Hlist
      {| StatusCode := 404;
         body := {| bodyId := 0; stream := textStream demoListingJSON |} |}
      (afterDo initial (httpClient (New "s3cr3t"))
         (apiRequest (New "s3cr3t") (listPath "app1" "build7"))))
      as (msg & st2 & Hrun & -> & _ & _ & _ & _ & Hdec & _).
    + reflexivity.
    + right. simpl. lia.
    + exists st2. split; [exact Hrun|exact Hdec].
  - destruct (Hdetail
      {| StatusCode := 500;
         body := {| bodyId := 0; stream := textStream demoDetailJSON |} |}
      (afterDo initial (httpClient (New "s3cr3t"))
         (apiRequest (New "s3cr3t") (detailPath "app1" "build7" "abc123"))))
      as (msg & st2 & Hrun & -> & _ & _ & _ & _ & Hdec & _).
    + reflexivity.
    + right. simpl. lia.
    + exists st2. split; [exact Hrun|exact Hdec].
Defined.

(** With nothing set, the error names [API_AUTH_TOKEN], the first variable
    read, although [ARTIFACT_NAME] is unset as well. *)
Lemma missing_env_is_reported_witness :
  ∃ k, firstMissing emptyWorld = Some k
    ∧ k ∈ requiredEnv ∧ Getenv emptyWorld k = ""
    ∧ mainE demoLib emptyWorld initial = (Some (errNoEnv k), initial)
    ∧ Error (errNoEnv k) = "environment variable (" +:+ k +:+ ") is not set"
    ∧ Contains k (Error (errNoEnv k))
    ∧ issued initial (mainE demoLib emptyWorld initial).2 = []
    ∧ requests (issued initial (mainE demoLib emptyWorld initial).2) = []
    ∧ filter (λ e, is_fs_event e = true)
        (issued initial (mainE demoLib emptyWorld initial).2) = []
    ∧ fs (mainE demoLib emptyWorld initial).2 = fs initial.
Proof.
  apply (missing_env_is_reported demoLib emptyWorld initial "ARTIFACT_NAME").
  - unfold requiredEnv. do 3 apply list_elem_of_further. apply list_elem_of_here.
  - reflexivity.
Defined.

(** The environment asks for [missing.ipa], which the listing does not
    have. *)
Lemma unknown_artifact_is_reported_witness :
  let W := demoWorld "missing.ipa" 200 200 in
  let c := New "s3cr3t" in
  let st2 :=
    after (afterDo (after initial [EvMkdirAll "." os_ModePerm]) (httpClient c)
             (apiRequest c (listPath "app1" "build7")))
          (EvDecode 0 :: closing 0 (textStream demoListingJSON)) in
  ∃ msg,
    mainE demoLib W initial = (Some (Errorf msg), st2)
    ∧ main demoLib W initial = (1, after st2 [EvStdout ("Error: " +:+ msg +:+ LF)])
    ∧ Contains "unable to find artifact with name (missing.ipa)" msg
    ∧ Contains ("  " +:+ quoted "app.apk" +:+ ": " +:+ quoted "abc123") msg
    ∧ requests (issued initial (main demoLib W initial).2)
      = [apiRequest c (listPath "app1" "build7")].
Proof.
  cbv zeta.
  destruct (unknown_artifact_is_reported demoLib (demoWorld "missing.ipa" 200 200)
              initial demoListing
              (after (afterDo (after initial [EvMkdirAll "." os_ModePerm])
                        (httpClient (New "s3cr3t"))
                        (apiRequest (New "s3cr3t") (listPath "app1" "build7")))
                     (EvDecode 0 :: closing 0 (textStream demoListingJSON))))
    as (msg & HmainE & Hmain & Hname & Hpairs & _ & Hreqs).
  - unfold requiredEnv.
    repeat (apply List.Forall_cons; [vm_compute; intros [=]|]).
    apply List.Forall_nil.
  - reflexivity.
  - vm_compute. reflexivity.
  - vm_compute. reflexivity.
  - exists msg. split_and!; [exact HmainE|exact Hmain|exact Hname| |exact Hreqs].
    apply (Hpairs "app.apk" "abc123"). vm_compute. reflexivity.
Defined.

(** [DownloadArtifact] for [abc123] on the concrete world. *)
Lemma DownloadArtifact_steps_witness :
  let W := demoWorld "app.apk" 200 200 in
  let c := New "s3cr3t" in
  let req := plainRequest demoSignedURL in
  ∃ st1 st3 reader,
    GetArtifactDetails demoLib W c "app1" "build7" "abc123" initial
      = (inr demoDetail, st1)
    ∧ DownloadArtifact demoLib W c "app1" "build7" "abc123" initial
      = (inr reader, st3)
    ∧ Header req !! "Authorization" = None
    ∧ content (stream reader) = demoPayload
    ∧ issued st1 st3 = [EvDo http_DefaultClient req (Some (bodyId reader))]
    ∧ bodyId reader ∉ closed (events st3).
Proof.
  cbv zeta.
  destruct (DownloadArtifact_steps demoLib (demoWorld "app.apk" 200 200)
              (New "s3cr3t") "app1" "build7" "abc123" initial
              (inr {| bodyId := 1;
                      stream := {| content := demoPayload; readErr := None;
                                   closeErr := None |} |})
              (DownloadArtifact demoLib (demoWorld "app.apk" 200 200)
                 (New "s3cr3t") "app1" "build7" "abc123" initial).2)
    as (rd & st1 & Hdetail & Hrest).
  - apply wf_initial.
  - vm_compute. reflexivity.
  - assert (rd = inr demoDetail) as ->.
    { assert (rd = (GetArtifactDetails demoLib (demoWorld "app.apk" 200 200)
                      (New "s3cr3t") "app1" "build7" "abc123" initial).1) as ->
        by (by rewrite Hdetail).
      vm_compute. reflexivity. }
    destruct Hrest as (_ & _ & Hauth & _ & raw & _ & _ & Hissued & Hopen).
    eexists st1, _, _. split_and!; [exact Hdetail| |exact Hauth| |exact Hissued|exact Hopen].
    + vm_compute. reflexivity.
    + reflexivity.
Defined.

(** [main] on a run that fails and on a run that succeeds. *)
Lemma main_exit_status_witness :
  (main demoLib emptyWorld initial
   = (1, after initial
           [EvStdout ("Error: environment variable (API_AUTH_TOKEN) is not set"
                      +:+ LF)])
   ∧ printed (issued initial (main demoLib emptyWorld initial).2)
     = ["Error: environment variable (API_AUTH_TOKEN) is not set" +:+ LF]
   ∧ Contains "environment variable (API_AUTH_TOKEN) is not set"
       ("Error: environment variable (API_AUTH_TOKEN) is not set" +:+ LF))
  ∧ main demoLib (demoWorld "app.apk" 200 200) initial
    = (0, (mainE demoLib (demoWorld "app.apk" 200 200) initial).2).
Proof.
  split.
  - apply (main_exit_status demoLib emptyWorld initial
             (Some (errNoEnv "API_AUTH_TOKEN")) initial).
    reflexivity.
  - apply (main_exit_status demoLib (demoWorld "app.apk" 200 200) initial None
             (mainE demoLib (demoWorld "app.apk" 200 200) initial).2).
    vm_compute. reflexivity.
Defined.

(** * Further properties *)

(** ** The title-to-slug map when titles are distinct *)

Lemma last_withTitle_unique (data : list ArtifactSummary) (a : ArtifactSummary) :
  NoDup (Title <$> data) → a ∈ data → last (withTitle (Title a) data) = Some a.
Proof.
  intros Hnodup (before & after & ->)%list_elem_of_split.
  apply last_withTitle. exists before, after. split_and!; [done..|].
  rewrite fmap_app, fmap_cons in Hnodup.
  apply NoDup_app in Hnodup as (_ & _ & [Hfresh _]%NoDup_cons).
  apply Forall_forall. intros b Hb Heq. apply Hfresh. rewrite <- Heq.
  by apply (list_elem_of_fmap_2 Title).
Qed.

Lemma buildSlugMap_lookup_unique (data : list ArtifactSummary) (t s : string) :
  NoDup (Title <$> data) →
  buildSlugMap data !! t = Some s ↔ ∃ a, a ∈ data ∧ Title a = t ∧ Slug a = s.
Proof.
  intros Hnodup. rewrite buildSlugMap_lookup, fmap_Some. split.
  - intros (a & (before & after & -> & Ht & _)%last_withTitle & ->).
    exists a. split_and!; [|done..]. rewrite elem_of_app, elem_of_cons. auto.
  - intros (a & Ha & <- & <-). exists a. split; [|done].
    by apply last_withTitle_unique.
Qed.

Lemma buildSlugMap_size (data : list ArtifactSummary) :
  size (buildSlugMap data) = length (remove_dups (Title <$> data)).
Proof.
  rewrite <- size_dom, buildSlugMap_dom.
  rewrite <- (size_list_to_set (C := gset string) (remove_dups (Title <$> data)))
    by apply NoDup_remove_dups.
  f_equal. apply set_eq. intros t.
  by rewrite !elem_of_list_to_set, elem_of_remove_dups.
Qed.

Lemma remove_dups_length_le (l : list string) :
  (length (remove_dups l) ≤ length l)%nat.
Proof.
  induction l as [|x l IH]; [done|]. simpl.
  destruct (decide_rel _ x l); simpl; lia.
Qed.

Lemma remove_dups_length_eq (l : list string) :
  length (remove_dups l) = length l ↔ NoDup l.
Proof.
  induction l as [|x l IH]; simpl.
  { split; [intros _; apply NoDup_nil_2|done]. }
  pose proof (remove_dups_length_le l) as Hle.
  rewrite NoDup_cons. destruct (decide_rel _ x l) as [Hx|Hx]; simpl.
  - split; [lia|]. by intros [? _].
  - split.
    + intros [= Hlen]. split; [done|]. by apply IH.
    + intros [_ Hl]. f_equal. by apply IH.
Qed.

(** X1: in a listing whose titles are pairwise distinct, every artifact is
    found under its own title with its own slug, and the map has one key per
    artifact. *)
Theorem unique_titles_all_findable (data : list ArtifactSummary) :
  NoDup (Title <$> data) →
  (∀ a, a ∈ data → buildSlugMap data !! Title a = Some (Slug a))
  ∧ size (buildSlugMap data) = length data.
Proof.
  intros Hnodup. split.
  - intros a Ha. apply buildSlugMap_lookup_unique; [done|]. by exists a.
  - rewrite buildSlugMap_size.
    rewrite (proj2 (remove_dups_length_eq _) Hnodup). apply length_fmap.
Qed.

(** X2: with pairwise distinct titles the order of the listing does not
    matter: two listings with the same entries give the same map. *)
Theorem slug_map_order_irrelevant (data data' : list ArtifactSummary) :
  NoDup (Title <$> data) → data ≡ₚ data' →
  buildSlugMap data = buildSlugMap data'.
Proof.
  intros Hnodup Hperm.
  assert (NoDup (Title <$> data')) as Hnodup' by by rewrite <- Hperm.
  apply map_eq. intros t. apply option_eq. intros s.
  rewrite !buildSlugMap_lookup_unique by done.
  by setoid_rewrite Hperm.
Qed.

(** X3: the map never has more keys than the listing has entries, and it
    has as many exactly when no title occurs twice: every repeated title
    costs an entry. *)
Theorem slug_map_size_bound (data : list ArtifactSummary) :
  (size (buildSlugMap data) ≤ length data)%nat
  ∧ (size (buildSlugMap data) = length data ↔ NoDup (Title <$> data)).
Proof.
  rewrite buildSlugMap_size, <- (length_fmap Title data).
  split; [apply remove_dups_length_le|apply remove_dups_length_eq].
Qed.

(** ** Every way through the API calls *)

Lemma GetArtifactsForBuild_paths (L : Lib) (W : World) (c : Client)
    (appSlug buildSlug : string) (st : State) :
  GetArtifactsForBuild L W c appSlug buildSlug st =
  let req := apiRequest c (listPath appSlug buildSlug) in
  match http_NewRequest_err L "GET" (URL req) with
  | Some err => (inl err, st)
  | None =>
      match Do W (httpClient c) req with
      | inl err => (inl err, after st [EvDo (httpClient c) req None])
      | inr raw =>
          if (rawStatus raw >=? 300) || (rawStatus raw <? 200)
          then (inl (Errorf ("failed to get artifacts with status code ("
                             +:+ fmt_d (rawStatus raw)
                             +:+ ") for [build_slug: " +:+ appSlug
                             +:+ ", app_slug: " +:+ buildSlug +:+ "]")),
                after (afterDo st (httpClient c) req)
                  (closing (nextBody st) (rawBody raw)))
          else (json_DecodeArtifacts L (rawBody raw),
                after (afterDo st (httpClient c) req)
                  (EvDecode (nextBody st) :: closing (nextBody st) (rawBody raw)))
      end
  end.
Proof.
  rewrite GetArtifactsForBuild_run, get_run, http_Client_Do_run. cbv zeta.
  destruct (http_NewRequest_err L _ _); [done|].
  by destruct (Do W _ _).
Qed.

Lemma GetArtifactDetails_paths (L : Lib) (W : World) (c : Client)
    (appSlug buildSlug artifactSlug : string) (st : State) :
  GetArtifactDetails L W c appSlug buildSlug artifactSlug st =
  let req := apiRequest c (detailPath appSlug buildSlug artifactSlug) in
  match http_NewRequest_err L "GET" (URL req) with
  | Some err => (inl err, st)
  | None =>
      match Do W (httpClient c) req with
      | inl err => (inl err, after st [EvDo (httpClient c) req None])
      | inr raw =>
          if (rawStatus raw >=? 300) || (rawStatus raw <? 200)
          then (inl (Errorf ("failed to get artifact details with status code ("
                             +:+ fmt_d (rawStatus raw)
                             +:+ ") for [build_slug: " +:+ appSlug
                             +:+ ", app_slug: " +:+ buildSlug +:+ "]")),
                after (afterDo st (httpClient c) req)
                  (closing (nextBody st) (rawBody raw)))
          else (json_DecodeArtifact L (rawBody raw),
                after (afterDo st (httpClient c) req)
                  (EvDecode (nextBody st) :: closing (nextBody st) (rawBody raw)))
      end
  end.
Proof.
  rewrite GetArtifactDetails_run, get_run, http_Client_Do_run. cbv zeta.
  destruct (http_NewRequest_err L _ _); [done|].
  by destruct (Do W _ _).
Qed.

Lemma DownloadArtifact_paths (L : Lib) (W : World) (c : Client)
    (appSlug buildSlug artifactSlug : string) (st : State) :
  DownloadArtifact L W c appSlug buildSlug artifactSlug st =
  match GetArtifactDetails L W c appSlug buildSlug artifactSlug st with
  | (inl err, st1) => (inl err, st1)
  | (inr artifact, st1) =>
      let req := plainRequest (ExpiringDownloadURL (aData artifact)) in
      match http_NewRequest_err L "GET" (URL req) with
      | Some err => (inl err, st1)
      | None =>
          match Do W http_DefaultClient req with
          | inl err => (inl err, after st1 [EvDo http_DefaultClient req None])
          | inr raw =>
              (inr {| bodyId := nextBody st1; stream := rawBody raw |},
               afterDo st1 http_DefaultClient req)
          end
      end
  end.
Proof.
  rewrite DownloadArtifact_run.
  destruct (GetArtifactDetails _ _ _ _ _ _ _) as [[err|artifact] st1]; [done|].
  rewrite http_Get_run, http_Client_Do_run. cbv zeta. simpl URL.
  destruct (http_NewRequest_err L _ _); [done|].
  by destruct (Do W _ _).
Qed.

Lemma io_Copy_run (W : World) (file : string) (reader : Body) (st : State) :
  io_Copy W file reader st =
  ((Z.of_nat (length (copied W file reader).1), (copied W file reader).2),
   afterCopy st file reader (copied W file reader).1).
Proof.
  unfold io_Copy, copied, afterCopy.
  destruct (WriteFault W file) as [[k werr]|]; [|done].
  by destruct (k <? length _)%nat.
Qed.

Lemma copied_prefix (W : World) (file : string) (reader : Body) :
  (copied W file reader).1 `prefix_of` content (stream reader)
  ∧ ((copied W file reader).2 = None →
     (copied W file reader).1 = content (stream reader)).
Proof.
  unfold copied. destruct (WriteFault W file) as [[k werr]|]; [|done].
  destruct (k <? length _)%nat; [|done]. simpl.
  split; [apply prefix_take|done].
Qed.

Lemma firstMissing_None_env (W : World) :
  firstMissing W = None → Forall (λ k, Getenv W k ≠ "") requiredEnv.
Proof.
  intros Hmiss. apply Forall_forall. intros k Hk%list_elem_of_In Hempty.
  pose proof (List.find_none _ _ Hmiss k Hk) as Hnone. simpl in Hnone.
  by rewrite bool_decide_eq_true_2 in Hnone.
Qed.

(** ** Every way through [mainE]

    [mainE] spelled out over the answers of the world: each line is one way
    the run can end, with the state it ends in. *)
Lemma mainE_all (L : Lib) (W : World) (st : State) :
  mainE L W st =
  let name := Getenv W "ARTIFACT_NAME" in
  let dir := downloadDirOf W in
  let c := New (Getenv W "API_AUTH_TOKEN") in
  let appSlug := Getenv W "APP_SLUG" in
  let buildSlug := Getenv W "WORKFLOW_SLUG_ID" in
  let file := filepath_Join L dir name in
  let n := nextBody st in
  let lreq := apiRequest c (listPath appSlug buildSlug) in
  let st0 := after st [EvMkdirAll dir os_ModePerm] in
  match firstMissing W with
  | Some k => (Some (errNoEnv k), st)
  | None =>
  match MkdirAll W dir os_ModePerm with
  | Some err => (Some err, st0)
  | None =>
  match http_NewRequest_err L "GET" (URL lreq) with
  | Some err => (Some err, st0)
  | None =>
  match Do W (httpClient c) lreq with
  | inl err => (Some err, after st0 [EvDo (httpClient c) lreq None])
  | inr rawL =>
  if (rawStatus rawL >=? 300) || (rawStatus rawL <? 200)
  then (Some (Errorf ("failed to get artifacts with status code ("
                      +:+ fmt_d (rawStatus rawL)
                      +:+ ") for [build_slug: " +:+ appSlug
                      +:+ ", app_slug: " +:+ buildSlug +:+ "]")),
        after (afterDo st0 (httpClient c) lreq) (closing n (rawBody rawL)))
  else
  let st2 := after (afterDo st0 (httpClient c) lreq)
               (EvDecode n :: closing n (rawBody rawL)) in
  match json_DecodeArtifacts L (rawBody rawL) with
  | inl err => (Some err, st2)
  | inr artifacts =>
  match buildSlugMap (Data artifacts) !! name with
  | None =>
      match json_MarshalIndent L (buildSlugMap (Data artifacts)) with
      | inl err => (Some err, st2)
      | inr keys =>
          (Some (Errorf ("unable to find artifact with name (" +:+ name
                         +:+ "), available artifacts:" +:+ LF +:+ keys)), st2)
      end
  | Some artifactSlug =>
  let dreq := apiRequest c (detailPath appSlug buildSlug artifactSlug) in
  match http_NewRequest_err L "GET" (URL dreq) with
  | Some err => (Some err, st2)
  | None =>
  match Do W (httpClient c) dreq with
  | inl err => (Some err, after st2 [EvDo (httpClient c) dreq None])
  | inr rawD =>
  if (rawStatus rawD >=? 300) || (rawStatus rawD <? 200)
  then (Some (Errorf ("failed to get artifact details with status code ("
                      +:+ fmt_d (rawStatus rawD)
                      +:+ ") for [build_slug: " +:+ appSlug
                      +:+ ", app_slug: " +:+ buildSlug +:+ "]")),
        after (afterDo st2 (httpClient c) dreq) (closing (S n) (rawBody rawD)))
  else
  let st3 := after (afterDo st2 (httpClient c) dreq)
               (EvDecode (S n) :: closing (S n) (rawBody rawD)) in
  match json_DecodeArtifact L (rawBody rawD) with
  | inl err => (Some err, st3)
  | inr artifact =>
  let greq := plainRequest (ExpiringDownloadURL (aData artifact)) in
  match http_NewRequest_err L "GET" (URL greq) with
  | Some err => (Some err, st3)
  | None =>
  match Do W http_DefaultClient greq with
  | inl err => (Some err, after st3 [EvDo http_DefaultClient greq None])
  | inr rawB =>
  let reader := {| bodyId := S (S n); stream := rawBody rawB |} in
  let st4 := afterDo st3 http_DefaultClient greq in
  match Create W file with
  | Some err => (Some err, st4)
  | None =>
  let st5 := afterCopy (afterCreate st4 file) file reader
               (copied W file reader).1 in
  match (copied W file reader).2 with
  | Some err => (Some err, st5)
  | None =>
      (None,
       after st5 [EvStdout ("done, ["
                            +:+ fmt_d (Z.of_nat (length (copied W file reader).1))
                            +:+ " byte] downloaded" +:+ LF)])
  end end end end end end end end end end end end end.
Proof.
  cbv zeta. destruct (firstMissing W) as [k|] eqn:Hmiss.
  { by apply mainE_firstMissing. }
  rewrite (mainE_run L W st (firstMissing_None_env W Hmiss)). cbv zeta.
  destruct (MkdirAll W _ _) as [err|]; [done|].
  rewrite GetArtifactsForBuild_paths. cbv zeta.
  destruct (http_NewRequest_err L _ _) as [err|]; [done|].
  destruct (Do W _ _) as [err|rawL]; [done|].
  destruct (_ || _); [done|].
  destruct (json_DecodeArtifacts L _) as [err|artifacts]; [done|].
  destruct (buildSlugMap _ !! _) as [artifactSlug|]; [|done].
  rewrite DownloadArtifact_paths, GetArtifactDetails_paths. cbv zeta.
  destruct (http_NewRequest_err L _ _) as [err|]; [done|].
  destruct (Do W _ _) as [err|rawD]; [done|].
  destruct (_ || _); [done|].
  destruct (json_DecodeArtifact L _) as [err|artifact]; [done|].
  destruct (http_NewRequest_err L _ _) as [err|]; [done|].
  destruct (Do W _ _) as [err|rawB]; [done|].
  destruct (Create W _) as [err|]; [done|].
  rewrite io_Copy_run.
  by destruct (copied W _ _).2.
Qed.

(** ** Properties of every run *)

Ltac mainE_cases :=
  rewrite ?main_run, mainE_all; cbv zeta; repeat case_match; simplify_eq.

Ltac trace_simpl :=
  cbn [fst snd]; unfold issued;
  cbn [events after afterDo afterCreate afterCopy];
  rewrite <- ?app_assoc, ?drop_app_length, ?drop_all;
  unfold requests, obtained, closed, decoded, printed, closing;
  rewrite ?omap_app; simpl; repeat (case_match; simpl).

(** X4: whatever the world answers, a run obtains at most three response
    bodies, and the bodies it closes are the first two it obtained: the
    listing and the detail body are closed on every way out, a third body,
    the download, is never closed. *)
Theorem bodies_closed_all_runs (L : Lib) (W : World) (st : State) :
  let tr := issued st (main L W st).2 in
  closed tr = take 2 (obtained tr)
  ∧ (length (obtained tr) ≤ 3)%nat.
Proof.
  mainE_cases; trace_simpl; (split; [done|lia]).
Qed.

Ltac solve_prefix :=
  repeat first [ apply prefix_nil | apply prefix_cons ].

(** X5: a run sends at most three requests and always in the same order:
    the listing request, then a detail request, then a plain GET; a later
    one is never sent without the earlier ones. *)
Theorem run_requests_in_order (L : Lib) (W : World) (st : State) :
  let c := New (Getenv W "API_AUTH_TOKEN") in
  let appSlug := Getenv W "APP_SLUG" in
  let buildSlug := Getenv W "WORKFLOW_SLUG_ID" in
  ∃ artifactSlug url,
    requests (issued st (main L W st).2)
    `prefix_of` [apiRequest c (listPath appSlug buildSlug);
                 apiRequest c (detailPath appSlug buildSlug artifactSlug);
                 plainRequest url].
Proof.
  cbv zeta. mainE_cases; trace_simpl; eexists _, _; solve_prefix.
  Unshelve. all: exact "".
Qed.

(** X6: the token stays with the API: every request of a run that has any
    header at all is a request built by [Client.get], addressed to the base
    domain and API version; the GET for the download URL has none. *)
Theorem token_only_to_api (L : Lib) (W : World) (st : State) (req : Request) :
  req ∈ requests (issued st (main L W st).2) →
  Header req ≠ ∅ →
  ∃ endpoint,
    req = apiRequest (New (Getenv W "API_AUTH_TOKEN")) endpoint
    ∧ URL req = domain +:+ "/" +:+ apiVersion +:+ "/" +:+ endpoint.
Proof.
  mainE_cases; trace_simpl; intros Hin Hheader;
    repeat (apply elem_of_cons in Hin as [->|Hin];
            [first [done | by eexists]|]);
    by apply elem_of_nil in Hin.
Qed.

(** X7: every run writes to standard output exactly once, with one
    [fmt.Printf]: with exit status 0 the text is the [done] line with the
    byte count, with exit status 1 it is [Error: ], the message of the error
    [mainE] returned (which may itself span several lines) and a line
    break. *)
Theorem one_print_per_run (L : Lib) (W : World) (st : State) :
  ∃ text,
    printed (issued st (main L W st).2) = [text]
    ∧ (((main L W st).1 = 0
        ∧ ∃ n, text = "done, [" +:+ fmt_d n +:+ " byte] downloaded" +:+ LF)
       ∨ ((main L W st).1 = 1
          ∧ ∃ err, (mainE L W st).1 = Some err
                   ∧ text = "Error: " +:+ Error err +:+ LF)).
Proof.
  mainE_cases; trace_simpl;
    (eexists; split; [reflexivity|]);
    first [ by left; split; [|eexists]
          | by right; split; [|eexists; split; reflexivity] ].
Qed.

(** X8: as long as a run has not obtained all three responses, it creates
    no file and copies nothing: the only thing it can have done to the file
    system by then is [os.MkdirAll] on the download directory. *)
Theorem no_file_before_download (L : Lib) (W : World) (st : State) :
  let st' := (main L W st).2 in
  (length (obtained (issued st st')) < 3)%nat →
  created (issued st st') = []
  ∧ (∀ e, e ∈ issued st st' →
       match e with EvCreate _ | EvCopy _ _ _ => False | _ => True end)
  ∧ (∀ e, e ∈ issued st st' → is_fs_event e = true →
       e = EvMkdirAll (downloadDirOf W) os_ModePerm).
Proof.
  cbv zeta. unfold created.
  mainE_cases; trace_simpl; intros Hlen; try lia;
    (split; [done|]); split; intros ev Hin;
    repeat (apply elem_of_cons in Hin as [->|Hin]; [done|]);
    by apply elem_of_nil in Hin.
Qed.

(** ** The steps of a run, one by one *)

Lemma env_firstMissing_None (W : World) :
  Forall (λ k, Getenv W k ≠ "") requiredEnv → firstMissing W = None.
Proof.
  intros Henv. destruct (firstMissing W) as [k|] eqn:Hmiss; [|done].
  apply List.find_some in Hmiss as [Hk%list_elem_of_In Hempty].
  apply bool_decide_eq_true_1 in Hempty.
  by destruct (proj1 (Forall_forall _ _) Henv k Hk).
Qed.

Lemma ok2xx_test (code : Z) :
  200 ≤ code < 300 → (code >=? 300) || (code <? 200) = false.
Proof.
  intros Hcode. apply orb_false_iff.
  rewrite Z.geb_leb, Z.leb_gt, Z.ltb_ge. lia.
Qed.

(** X9: when the display name is in the listing, the next thing the run
    does is ask the detail endpoint for the slug of the last entry that
    carries this name. *)
Theorem matched_slug_is_requested (L : Lib) (W : World) (st : State)
    (artifacts : Artifacts) (st2 : State) (a : ArtifactSummary) :
  let name := Getenv W "ARTIFACT_NAME" in
  let c := New (Getenv W "API_AUTH_TOKEN") in
  let appSlug := Getenv W "APP_SLUG" in
  let buildSlug := Getenv W "WORKFLOW_SLUG_ID" in
  let dreq := apiRequest c (detailPath appSlug buildSlug (Slug a)) in
  Forall (λ k, Getenv W k ≠ "") requiredEnv →
  MkdirAll W (downloadDirOf W) os_ModePerm = None →
  GetArtifactsForBuild L W c appSlug buildSlug
    (after st [EvMkdirAll (downloadDirOf W) os_ModePerm]) = (inr artifacts, st2) →
  last (withTitle name (Data artifacts)) = Some a →
  http_NewRequest_err L "GET" (URL dreq) = None →
  ∃ got, head (issued st2 (mainE L W st).2) = Some (EvDo (httpClient c) dreq got).
Proof.
  intros name c appSlug buildSlug dreq Henv Hmk Hlist Hlast Hreq.
  rewrite (mainE_run L W st Henv). cbv zeta.
  fold name c appSlug buildSlug. rewrite Hmk, Hlist.
  rewrite buildSlugMap_lookup, Hlast. cbn [fmap option_fmap option_map].
  rewrite DownloadArtifact_paths, GetArtifactDetails_paths. cbv zeta.
  fold dreq. rewrite Hreq.
  repeat first [rewrite io_Copy_run | case_match];
    simplify_eq; trace_simpl; by eexists.
Qed.

(** X10: with the four variables set, the first thing a run does is
    [os.MkdirAll] on the download directory with mode 0777; when that fails
    the run ends there, with that error and without any request. *)
Theorem mkdir_first_and_fatal (L : Lib) (W : World) (st : State) :
  Forall (λ k, Getenv W k ≠ "") requiredEnv →
  head (issued st (mainE L W st).2)
  = Some (EvMkdirAll (downloadDirOf W) 511)
  ∧ (∀ err, MkdirAll W (downloadDirOf W) os_ModePerm = Some err →
       mainE L W st
       = (Some err, after st [EvMkdirAll (downloadDirOf W) os_ModePerm])).
Proof.
  intros Hnone%env_firstMissing_None. rewrite mainE_all, Hnone. cbv zeta.
  split.
  - repeat case_match; simplify_eq; by trace_simpl.
  - by intros err ->.
Qed.

(** X11: [DownloadArtifact] does not look at the status code of the download
    response: once the details are there and the GET is answered, the body
    of the answer is the result, whatever the status. *)
Theorem download_ignores_status (L : Lib) (W : World) (c : Client)
    (appSlug buildSlug artifactSlug : string) (st : State)
    (artifact : Artifact) (st1 : State) (raw : RawResponse) :
  let req := plainRequest (ExpiringDownloadURL (aData artifact)) in
  GetArtifactDetails L W c appSlug buildSlug artifactSlug st = (inr artifact, st1) →
  http_NewRequest_err L "GET" (URL req) = None →
  Do W http_DefaultClient req = inr raw →
  DownloadArtifact L W c appSlug buildSlug artifactSlug st
  = (inr {| bodyId := nextBody st1; stream := rawBody raw |},
     afterDo st1 http_DefaultClient req).
Proof.
  intros req Hdetail Hreq HDo.
  rewrite DownloadArtifact_paths, Hdetail. cbv zeta. fold req.
  by rewrite Hreq, HDo.
Qed.

(** X12: what is enough for a run to succeed: the four variables set, the
    directory made, the listing and the detail request answered with a 2xx
    status and a body the decoder accepts, the name in the listing, the
    download URL answered (with any status), the file created and the copy
    undisturbed.  Then [main] exits with 0 and the file holds the body of
    the download response. *)
Theorem sufficient_for_success (L : Lib) (W : World) (st : State)
    (rawL rawD rawB : RawResponse) (artifacts : Artifacts)
    (artifactSlug : string) (artifact : Artifact) :
  let name := Getenv W "ARTIFACT_NAME" in
  let c := New (Getenv W "API_AUTH_TOKEN") in
  let appSlug := Getenv W "APP_SLUG" in
  let buildSlug := Getenv W "WORKFLOW_SLUG_ID" in
  let file := filepath_Join L (downloadDirOf W) name in
  let lreq := apiRequest c (listPath appSlug buildSlug) in
  let dreq := apiRequest c (detailPath appSlug buildSlug artifactSlug) in
  let greq := plainRequest (ExpiringDownloadURL (aData artifact)) in
  Forall (λ k, Getenv W k ≠ "") requiredEnv →
  MkdirAll W (downloadDirOf W) os_ModePerm = None →
  http_NewRequest_err L "GET" (URL lreq) = None →
  Do W (httpClient c) lreq = inr rawL →
  200 ≤ rawStatus rawL < 300 →
  json_DecodeArtifacts L (rawBody rawL) = inr artifacts →
  buildSlugMap (Data artifacts) !! name = Some artifactSlug →
  http_NewRequest_err L "GET" (URL dreq) = None →
  Do W (httpClient c) dreq = inr rawD →
  200 ≤ rawStatus rawD < 300 →
  json_DecodeArtifact L (rawBody rawD) = inr artifact →
  http_NewRequest_err L "GET" (URL greq) = None →
  Do W http_DefaultClient greq = inr rawB →
  Create W file = None →
  WriteFault W file = None →
  readErr (rawBody rawB) = None →
  (main L W st).1 = 0
  ∧ (mainE L W st).1 = None
  ∧ fs (main L W st).2 !! file = Some (content (rawBody rawB))
  ∧ printed (issued st (main L W st).2)
    = ["done, [" +:+ fmt_d (Z.of_nat (length (content (rawBody rawB))))
       +:+ " byte] downloaded" +:+ LF].
Proof.
  intros name c appSlug buildSlug file lreq dreq greq
    Hnone%env_firstMissing_None Hmk HreqL HDoL HcodeL%ok2xx_test HdecL Hslug
    HreqD HDoD HcodeD%ok2xx_test HdecD HreqB HDoB Hcreate Hfault Hread.
  assert (copied W file {| bodyId := S (S (nextBody st)); stream := rawBody rawB |}
          = (content (rawBody rawB), None)) as Hcopied.
  { unfold copied. simpl. by rewrite Hfault, Hread. }
  rewrite main_run, mainE_all, Hnone. cbv zeta.
  fold name c appSlug buildSlug file lreq.
  rewrite Hmk, HreqL, HDoL, HcodeL, HdecL, Hslug. fold dreq.
  rewrite HreqD, HDoD, HcodeD, HdecD. fold greq.
  rewrite HreqB, HDoB, Hcreate, Hcopied. cbn [fst snd].
  split_and!; [done..| |].
  - cbn [fs after afterCopy afterCreate afterDo].
    by rewrite lookup_insert_eq, lookup_insert_eq.
  - trace_simpl; done.
Qed.

(** X13: when [io.Copy] ends with an error, [mainE] returns that error and
    prints nothing, and the file it created stays behind: it holds the [n]
    bytes that were written, a prefix of the body. *)
Theorem copy_failure_leaves_partial_file (L : Lib) (W : World) (st : State)
    (artifacts : Artifacts) (st2 : State) (artifactSlug : string)
    (reader : Body) (st3 : State) (n : Z) (err : error) (st5 : State) :
  let name := Getenv W "ARTIFACT_NAME" in
  let c := New (Getenv W "API_AUTH_TOKEN") in
  let appSlug := Getenv W "APP_SLUG" in
  let buildSlug := Getenv W "WORKFLOW_SLUG_ID" in
  let file := filepath_Join L (downloadDirOf W) name in
  Forall (λ k, Getenv W k ≠ "") requiredEnv →
  MkdirAll W (downloadDirOf W) os_ModePerm = None →
  GetArtifactsForBuild L W c appSlug buildSlug
    (after st [EvMkdirAll (downloadDirOf W) os_ModePerm]) = (inr artifacts, st2) →
  buildSlugMap (Data artifacts) !! name = Some artifactSlug →
  DownloadArtifact L W c appSlug buildSlug artifactSlug st2 = (inr reader, st3) →
  Create W file = None →
  io_Copy W file reader (afterCreate st3 file) = ((n, Some err), st5) →
  mainE L W st = (Some err, st5)
  ∧ printed (issued st3 st5) = []
  ∧ ∃ written,
      fs st5 !! file = Some written
      ∧ written `prefix_of` content (stream reader)
      ∧ n = Z.of_nat (length written).
Proof.
  intros name c appSlug buildSlug file Henv Hmk Hlist Hslug Hdl Hcreate Hcopy.
  rewrite (mainE_run L W st Henv). cbv zeta.
  fold name c appSlug buildSlug file.
  rewrite Hmk, Hlist, Hslug, Hdl, Hcreate, Hcopy. split; [done|].
  rewrite io_Copy_run in Hcopy. injection Hcopy as <- Herr <-.
  split; [by trace_simpl|].
  exists (copied W file reader).1. split_and!; [|apply copied_prefix|done].
  cbn [fs afterCopy afterCreate]. by rewrite lookup_insert_eq, lookup_insert_eq.
Qed.

(** X14: an empty listing knows no name: whatever display name is
    configured, the run fails and the message ends with an empty JSON
    object. *)
Theorem empty_listing_message (L : Lib) (W : World) (st : State)
    (artifacts : Artifacts) (st2 : State) :
  let name := Getenv W "ARTIFACT_NAME" in
  let c := New (Getenv W "API_AUTH_TOKEN") in
  Forall (λ k, Getenv W k ≠ "") requiredEnv →
  MkdirAll W (downloadDirOf W) os_ModePerm = None →
  GetArtifactsForBuild L W c (Getenv W "APP_SLUG") (Getenv W "WORKFLOW_SLUG_ID")
    (after st [EvMkdirAll (downloadDirOf W) os_ModePerm]) = (inr artifacts, st2) →
  Data artifacts = [] →
  mainE L W st
  = (Some (Errorf ("unable to find artifact with name (" +:+ name
                   +:+ "), available artifacts:" +:+ LF +:+ "{}")), st2).
Proof.
  intros name c Henv Hmk Hlist Hempty.
  rewrite (mainE_run L W st Henv). cbv zeta. fold name c.
  rewrite Hmk, Hlist, Hempty.
  change (buildSlugMap []) with (∅ : gmap string string).
  rewrite lookup_empty. unfold json_MarshalIndent, sortedEntries.
  by rewrite map_to_list_empty.
Qed.

(** ** The two API calls *)

(** X15: on each of its ways out an API call has closed exactly the bodies
    it obtained, which is at most one, and has decoded nothing but that
    body, at most once. *)
Theorem api_calls_close_what_they_obtain (L : Lib) (W : World) (c : Client)
    (appSlug buildSlug artifactSlug : string) (st : State) :
  let tr1 := issued st (GetArtifactsForBuild L W c appSlug buildSlug st).2 in
  let tr2 :=
    issued st (GetArtifactDetails L W c appSlug buildSlug artifactSlug st).2 in
  (closed tr1 = obtained tr1 ∧ (length (obtained tr1) ≤ 1)%nat
   ∧ decoded tr1 `prefix_of` obtained tr1)
  ∧ (closed tr2 = obtained tr2 ∧ (length (obtained tr2) ≤ 1)%nat
     ∧ decoded tr2 `prefix_of` obtained tr2).
Proof.
  cbv zeta. rewrite GetArtifactsForBuild_paths, GetArtifactDetails_paths.
  cbv zeta. split; repeat case_match; trace_simpl;
    (split_and!; [done|lia|solve_prefix]).
Qed.

(** X16: an API call returns a value only if the request was answered with
    a status in [200,300) and the decoder made this value of the body; by
    then the body has been decoded and closed, in this order. *)
Theorem api_success_means_2xx_and_decoded (L : Lib) (W : World) (c : Client)
    (appSlug buildSlug artifactSlug : string) (st : State) :
  (∀ artifacts st2,
     GetArtifactsForBuild L W c appSlug buildSlug st = (inr artifacts, st2) →
     ∃ raw,
       Do W (httpClient c) (apiRequest c (listPath appSlug buildSlug)) = inr raw
       ∧ 200 ≤ rawStatus raw < 300
       ∧ json_DecodeArtifacts L (rawBody raw) = inr artifacts
       ∧ issued st st2
         = EvDo (httpClient c) (apiRequest c (listPath appSlug buildSlug))
             (Some (nextBody st))
           :: EvDecode (nextBody st) :: closing (nextBody st) (rawBody raw))
  ∧ (∀ artifact st2,
     GetArtifactDetails L W c appSlug buildSlug artifactSlug st
       = (inr artifact, st2) →
     ∃ raw,
       Do W (httpClient c)
         (apiRequest c (detailPath appSlug buildSlug artifactSlug)) = inr raw
       ∧ 200 ≤ rawStatus raw < 300
       ∧ json_DecodeArtifact L (rawBody raw) = inr artifact
       ∧ issued st st2
         = EvDo (httpClient c)
             (apiRequest c (detailPath appSlug buildSlug artifactSlug))
             (Some (nextBody st))
           :: EvDecode (nextBody st) :: closing (nextBody st) (rawBody raw)).
Proof.
  split.
  - intros artifacts st2 (raw & HDo & Hcode & Hdec & ->)%GetArtifactsForBuild_ok.
    exists raw. do 3 (split; [done|]).
    apply issued_events. cbn [events after afterDo].
    rewrite <- app_assoc. reflexivity.
  - intros artifact st2 (raw & HDo & Hcode & Hdec & ->)%GetArtifactDetails_ok.
    exists raw. do 3 (split; [done|]).
    apply issued_events. cbn [events after afterDo].
    rewrite <- app_assoc. reflexivity.
Qed.

(** X17: for an answer with a status in [200,300) the result of an API call
    is what the decoder makes of the body, a value or an error; either way
    the body is closed once the decoder is done with it. *)
Theorem decoder_result_is_returned (L : Lib) (W : World) (c : Client)
    (appSlug buildSlug artifactSlug : string) (st : State) :
  (∀ raw,
     http_NewRequest_err L "GET"
       (URL (apiRequest c (listPath appSlug buildSlug))) = None →
     Do W (httpClient c) (apiRequest c (listPath appSlug buildSlug)) = inr raw →
     200 ≤ rawStatus raw < 300 →
     (GetArtifactsForBuild L W c appSlug buildSlug st).1
     = json_DecodeArtifacts L (rawBody raw)
     ∧ issued st (GetArtifactsForBuild L W c appSlug buildSlug st).2
       = EvDo (httpClient c) (apiRequest c (listPath appSlug buildSlug))
           (Some (nextBody st))
         :: EvDecode (nextBody st) :: closing (nextBody st) (rawBody raw))
  ∧ (∀ raw,
     http_NewRequest_err L "GET"
       (URL (apiRequest c (detailPath appSlug buildSlug artifactSlug))) = None →
     Do W (httpClient c)
       (apiRequest c (detailPath appSlug buildSlug artifactSlug)) = inr raw →
     200 ≤ rawStatus raw < 300 →
     (GetArtifactDetails L W c appSlug buildSlug artifactSlug st).1
     = json_DecodeArtifact L (rawBody raw)
     ∧ issued st (GetArtifactDetails L W c appSlug buildSlug artifactSlug st).2
       = EvDo (httpClient c)
           (apiRequest c (detailPath appSlug buildSlug artifactSlug))
           (Some (nextBody st))
         :: EvDecode (nextBody st) :: closing (nextBody st) (rawBody raw)).
Proof.
  split; intros raw Hreq HDo Hcode%ok2xx_test.
  - rewrite GetArtifactsForBuild_paths. cbv zeta. rewrite Hreq, HDo, Hcode.
    split; [done|]. cbn [snd].
    erewrite issued_events;
      [|cbn [events after afterDo]; rewrite <- app_assoc; reflexivity].
    done.
  - rewrite GetArtifactDetails_paths. cbv zeta. rewrite Hreq, HDo, Hcode.
    split; [done|]. cbn [snd].
    erewrite issued_events;
      [|cbn [events after afterDo]; rewrite <- app_assoc; reflexivity].
    done.
Qed.

(** X18: an error of [Body.Close] is logged and nothing more: the result
    of the API call is the status error or the decoder's result as if the
    body had closed properly, the log line is the last thing that happens in
    the call, and nothing goes to standard output. *)
Theorem close_failure_is_only_logged (L : Lib) (W : World) (c : Client)
    (appSlug buildSlug artifactSlug : string) (st : State) :
  (∀ raw cerr,
     http_NewRequest_err L "GET"
       (URL (apiRequest c (listPath appSlug buildSlug))) = None →
     Do W (httpClient c) (apiRequest c (listPath appSlug buildSlug)) = inr raw →
     closeErr (rawBody raw) = Some cerr →
     let run := GetArtifactsForBuild L W c appSlug buildSlug st in
     (200 ≤ rawStatus raw < 300 → run.1 = json_DecodeArtifacts L (rawBody raw))
     ∧ (rawStatus raw < 200 ∨ 300 ≤ rawStatus raw →
        ∃ msg, run.1 = inl (Errorf msg))
     ∧ last (issued st run.2)
       = Some (EvLog (" [!] Failed to close response body: " +:+ Error cerr))
     ∧ printed (issued st run.2) = [])
  ∧ (∀ raw cerr,
     http_NewRequest_err L "GET"
       (URL (apiRequest c (detailPath appSlug buildSlug artifactSlug))) = None →
     Do W (httpClient c)
       (apiRequest c (detailPath appSlug buildSlug artifactSlug)) = inr raw →
     closeErr (rawBody raw) = Some cerr →
     let run := GetArtifactDetails L W c appSlug buildSlug artifactSlug st in
     (200 ≤ rawStatus raw < 300 → run.1 = json_DecodeArtifact L (rawBody raw))
     ∧ (rawStatus raw < 200 ∨ 300 ≤ rawStatus raw →
        ∃ msg, run.1 = inl (Errorf msg))
     ∧ last (issued st run.2)
       = Some (EvLog (" [!] Failed to close response body: " +:+ Error cerr))
     ∧ printed (issued st run.2) = []).
Proof.
  split; intros raw cerr Hreq HDo Hclose; cbv zeta.
  - rewrite GetArtifactsForBuild_paths. cbv zeta. rewrite Hreq, HDo.
    split_and!.
    + by intros ->%ok2xx_test.
    + intros ->%non2xx_test. by eexists.
    + destruct (_ || _); trace_simpl; simplify_eq; done.
    + destruct (_ || _); trace_simpl; simplify_eq; done.
  - rewrite GetArtifactDetails_paths. cbv zeta. rewrite Hreq, HDo.
    split_and!.
    + by intros ->%ok2xx_test.
    + intros ->%non2xx_test. by eexists.
    + destruct (_ || _); trace_simpl; simplify_eq; done.
    + destruct (_ || _); trace_simpl; simplify_eq; done.
Qed.

(** ** The further properties on concrete worlds *)

(** Two artifacts with different titles. *)
Lemma unique_titles_all_findable_witness :
  let data := [artifactEntry "app.apk" "abc123"; artifactEntry "app.ipa" "def456"] in
  (∀ a, a ∈ data → buildSlugMap data !! Title a = Some (Slug a))
  ∧ size (buildSlugMap data) = length data.
Proof.
  apply (unique_titles_all_findable
           [artifactEntry "app.apk" "abc123"; artifactEntry "app.ipa" "def456"]).
  apply NoDup_cons_2; [|apply NoDup_singleton].
  intros Hin%list_elem_of_singleton. discriminate Hin.
Defined.

(** The same two artifacts listed in either order. *)
Lemma slug_map_order_irrelevant_witness :
  buildSlugMap [artifactEntry "app.apk" "abc123"; artifactEntry "app.ipa" "def456"]
  = buildSlugMap [artifactEntry "app.ipa" "def456"; artifactEntry "app.apk" "abc123"].
Proof.
  apply slug_map_order_irrelevant.
  - apply NoDup_cons_2; [|apply NoDup_singleton].
    intros Hin%list_elem_of_singleton. discriminate Hin.
  - apply perm_swap.
Defined.

(** The listing request of the successful run is the API request for the
    listing endpoint. *)
Lemma token_only_to_api_witness :
  ∃ endpoint,
    apiRequest (New "s3cr3t") (listPath "app1" "build7")
    = apiRequest (New "s3cr3t") endpoint
    ∧ URL (apiRequest (New "s3cr3t") (listPath "app1" "build7"))
      = domain +:+ "/" +:+ apiVersion +:+ "/" +:+ endpoint.
Proof.
  apply (token_only_to_api demoLib (demoWorld "app.apk" 200 200) initial
           (apiRequest (New "s3cr3t") (listPath "app1" "build7"))).
  - vm_compute. apply list_elem_of_here.
  - intros Hempty.
    apply (f_equal (λ h : gmap string (list string), h !! "Authorization"))
      in Hempty.
    discriminate Hempty.
Defined.

(** A listing answered with 404: one body obtained, no file made; the
    directory has been asked for. *)
Lemma no_file_before_download_witness :
  let st' := (main demoLib (demoWorld "app.apk" 404 200) initial).2 in
  created (issued initial st') = []
  ∧ (∀ e, e ∈ issued initial st' →
       match e with EvCreate _ | EvCopy _ _ _ => False | _ => True end)
  ∧ (∀ e, e ∈ issued initial st' → is_fs_event e = true →
       e = EvMkdirAll "." os_ModePerm).
Proof.
  apply (no_file_before_download demoLib (demoWorld "app.apk" 404 200) initial).
  vm_compute. lia.
Defined.

(** The run for [app.apk] asks for the details of [abc123]. *)
Lemma matched_slug_is_requested_witness :
  let W := demoWorld "app.apk" 200 200 in
  let c := New "s3cr3t" in
  let st2 :=
    (GetArtifactsForBuild demoLib W c "app1" "build7"
       (after initial [EvMkdirAll "." os_ModePerm])).2 in
  ∃ got,
    head (issued st2 (mainE demoLib W initial).2)
    = Some (EvDo (httpClient c)
              (apiRequest c (detailPath "app1" "build7" "abc123")) got).
Proof.
  apply (matched_slug_is_requested demoLib (demoWorld "app.apk" 200 200) initial
           demoListing
           (GetArtifactsForBuild demoLib (demoWorld "app.apk" 200 200)
              (New "s3cr3t") "app1" "build7"
              (after initial [EvMkdirAll "." os_ModePerm])).2
           {| ArtifactType := ""; IsPublicPageEnabled := false;
              Slug := "abc123"; Title := "app.apk" |}).
  - unfold requiredEnv.
    repeat (apply List.Forall_cons; [vm_compute; intros [=]|]).
    apply List.Forall_nil.
  - reflexivity.
  - vm_compute. reflexivity.
  - vm_compute. reflexivity.
  - reflexivity.
Defined.

(** A download directory that cannot be made ends the run at once. *)
Lemma mkdir_first_and_fatal_witness :
  head (issued initial (mainE demoLib readOnlyWorld initial).2)
  = Some (EvMkdirAll "." 511)
  ∧ mainE demoLib readOnlyWorld initial
    = (Some (FsError "mkdir .: permission denied"),
       after initial [EvMkdirAll "." os_ModePerm]).
Proof.
  destruct (mkdir_first_and_fatal demoLib readOnlyWorld initial) as [Hhead Hfatal].
  - unfold requiredEnv.
    repeat (apply List.Forall_cons; [vm_compute; intros [=]|]).
    apply List.Forall_nil.
  - split; [exact Hhead|]. apply Hfatal. reflexivity.
Defined.

(** A signed URL that answers 403: its body is the result all the same. *)
Lemma download_ignores_status_witness :
  let st1 :=
    (GetArtifactDetails demoLib deniedWorld (New "s3cr3t") "app1" "build7"
       "abc123" initial).2 in
  DownloadArtifact demoLib deniedWorld (New "s3cr3t") "app1" "build7" "abc123"
    initial
  = (inr {| bodyId := nextBody st1; stream := textStream "AccessDenied" |},
     afterDo st1 http_DefaultClient (plainRequest demoSignedURL)).
Proof.
  apply (download_ignores_status demoLib deniedWorld (New "s3cr3t")
           "app1" "build7" "abc123" initial demoDetail
           (GetArtifactDetails demoLib deniedWorld (New "s3cr3t") "app1" "build7"
              "abc123" initial).2
           {| rawStatus := 403; rawBody := textStream "AccessDenied" |}).
  - vm_compute. reflexivity.
  - reflexivity.
  - reflexivity.
Defined.

(** The signed URL answers 403 with twelve bytes: the run succeeds and the
    file holds these twelve bytes. *)
Lemma sufficient_for_success_witness :
  (main demoLib deniedWorld initial).1 = 0
  ∧ (mainE demoLib deniedWorld initial).1 = None
  ∧ fs (main demoLib deniedWorld initial).2 !! "app.apk"
    = Some (list_byte_of_string "AccessDenied")
  ∧ printed (issued initial (main demoLib deniedWorld initial).2)
    = ["done, [" +:+ fmt_d 12 +:+ " byte] downloaded" +:+ LF].
Proof.
  apply (sufficient_for_success demoLib deniedWorld initial
           {| rawStatus := 200; rawBody := textStream demoListingJSON |}
           {| rawStatus := 200; rawBody := textStream demoDetailJSON |}
           {| rawStatus := 403; rawBody := textStream "AccessDenied" |}
           demoListing "abc123" demoDetail).
  - unfold requiredEnv.
    repeat (apply List.Forall_cons; [vm_compute; intros [=]|]).
    apply List.Forall_nil.
  - reflexivity.
  - reflexivity.
  - reflexivity.
  - simpl. lia.
  - vm_compute. reflexivity.
  - vm_compute. reflexivity.
  - reflexivity.
  - reflexivity.
  - simpl. lia.
  - vm_compute. reflexivity.
  - reflexivity.
  - reflexivity.
  - reflexivity.
  - reflexivity.
  - reflexivity.
Defined.

(** The disk is full after 100 of the 1024 bytes. *)
Lemma copy_failure_leaves_partial_file_witness :
  let W := fullDiskWorld in
  let c := New "s3cr3t" in
  let st2 := (GetArtifactsForBuild demoLib W c "app1" "build7"
                (after initial [EvMkdirAll "." os_ModePerm])).2 in
  let st3 := (DownloadArtifact demoLib W c "app1" "build7" "abc123" st2).2 in
  let reader := {| bodyId := 2;
                   stream := {| content := demoPayload; readErr := None;
                                closeErr := None |} |} in
  let st5 := (io_Copy W "app.apk" reader (afterCreate st3 "app.apk")).2 in
  mainE demoLib W initial = (Some (FsError "no space left on device"), st5)
  ∧ printed (issued st3 st5) = []
  ∧ ∃ written,
      fs st5 !! "app.apk" = Some written
      ∧ written `prefix_of` demoPayload
      ∧ 100 = Z.of_nat (length written).
Proof.
  apply (copy_failure_leaves_partial_file demoLib fullDiskWorld initial
           demoListing
           (GetArtifactsForBuild demoLib fullDiskWorld (New "s3cr3t")
              "app1" "build7" (after initial [EvMkdirAll "." os_ModePerm])).2
           "abc123"
           {| bodyId := 2;
              stream := {| content := demoPayload; readErr := None;
                           closeErr := None |} |}).
  - unfold requiredEnv.
    repeat (apply List.Forall_cons; [vm_compute; intros [=]|]).
    apply List.Forall_nil.
  - reflexivity.
  - vm_compute. reflexivity.
  - vm_compute. reflexivity.
  - vm_compute. reflexivity.
  - reflexivity.
  - vm_compute. reflexivity.
Defined.

(** A decoder that finds no artifact in the listing. *)
Lemma empty_listing_message_witness :
  let W := demoWorld "app.apk" 200 200 in
  let st2 := (GetArtifactsForBuild emptyListingLib W (New "s3cr3t") "app1" "build7"
                (after initial [EvMkdirAll "." os_ModePerm])).2 in
  mainE emptyListingLib W initial
  = (Some (Errorf ("unable to find artifact with name (app.apk), available artifacts:"
                   +:+ LF +:+ "{}")), st2).
Proof.
  apply (empty_listing_message emptyListingLib (demoWorld "app.apk" 200 200) initial
           {| Data := [];
              Paging := {| PageItemLimit := 50; TotalItemCount := 0 |} |}).
  - unfold requiredEnv.
    repeat (apply List.Forall_cons; [vm_compute; intros [=]|]).
    apply List.Forall_nil.
  - reflexivity.
  - vm_compute. reflexivity.
  - reflexivity.
Defined.

(** The listing of the concrete world was answered with 200 and decoded. *)
Lemma api_success_means_2xx_and_decoded_witness :
  let W := demoWorld "app.apk" 200 200 in
  let c := New "s3cr3t" in
  ∃ raw,
    Do W (httpClient c) (apiRequest c (listPath "app1" "build7")) = inr raw
    ∧ 200 ≤ rawStatus raw < 300
    ∧ json_DecodeArtifacts demoLib (rawBody raw) = inr demoListing
    ∧ issued initial (GetArtifactsForBuild demoLib W c "app1" "build7" initial).2
      = EvDo (httpClient c) (apiRequest c (listPath "app1" "build7")) (Some 0%nat)
        :: EvDecode 0 :: closing 0 (rawBody raw).
Proof.
  apply (proj1 (api_success_means_2xx_and_decoded demoLib
                  (demoWorld "app.apk" 200 200) (New "s3cr3t")
                  "app1" "build7" "abc123" initial)).
  vm_compute. reflexivity.
Defined.

(** A page of HTML with status 200: the decoder's error is the result, and
    the body is closed after the decoder has seen it. *)
Lemma decoder_result_is_returned_witness :
  let c := New "s3cr3t" in
  (GetArtifactsForBuild demoLib htmlWorld c "app1" "build7" initial).1
  = inl (DecodeError "unexpected document")
  ∧ issued initial (GetArtifactsForBuild demoLib htmlWorld c "app1" "build7" initial).2
    = [EvDo (httpClient c) (apiRequest c (listPath "app1" "build7")) (Some 0%nat);
       EvDecode 0; EvClose 0].
Proof.
  apply (proj1 (decoder_result_is_returned demoLib htmlWorld (New "s3cr3t")
                  "app1" "build7" "abc123" initial)
           {| rawStatus := 200; rawBody := textStream "<html>maintenance</html>" |}).
  - reflexivity.
  - reflexivity.
  - simpl. lia.
Defined.

(** The listing is returned although its body could not be closed. *)
Lemma close_failure_is_only_logged_witness :
  let run := GetArtifactsForBuild demoLib resetWorld (New "s3cr3t")
               "app1" "build7" initial in
  run.1 = inr demoListing
  ∧ last (issued initial run.2)
    = Some (EvLog " [!] Failed to close response body: connection reset by peer")
  ∧ printed (issued initial run.2) = [].
Proof.
  cbv zeta.
  destruct (proj1 (close_failure_is_only_logged demoLib resetWorld (New "s3cr3t")
                     "app1" "build7" "abc123" initial)
              {| rawStatus := 200;
                 rawBody := {| content := list_byte_of_string demoListingJSON;
                               readErr := None;
                               closeErr := Some (CloseError "connection reset by peer") |} |}
              (CloseError "connection reset by peer"))
    as (Hok & _ & Hlast & Hprinted).
  - reflexivity.
  - reflexivity.
  - reflexivity.
  - split_and!; [|exact Hlast|exact Hprinted].
    rewrite Hok; [vm_compute; reflexivity|simpl; lia].
Defined.

(** * Where the file lies, and the URL a request carries *)

(** ** Joining a directory and one path element *)











(** ** Escaping *)



(** ** The file of a successful run *)





(** ** The URL of an API request *)



